(** * micro-frontend-cli: configuration synthesis, checked against its specification

    A shallow embedding of the pure configuration logic of the CLI
    (identifier normalisation, shared-dependency policy, host/remote
    configuration records, the webpack template's federation options and
    the Nx / Turborepo workspace files), followed by the properties the
    specification states about them and by further properties of the code:
    the name validators, the template's dev-server and output settings, the
    package manifest, and the generators as programs over the file system.

    Modelling conventions.
    - A JavaScript string is a Rocq [string], read as its UTF-8 bytes.  Every
      regular expression of the sources only distinguishes ASCII characters and
      treats all others alike, so the byte view and the UTF-16 view agree.
    - A JavaScript object used as a dictionary is a [gmap string _] of its
      own properties; where the sources assign under a computed name, the
      inherited accessor [__proto__] is modelled (see [assign]).  An
      optional property ([p?: T]) is an [option]; a [number] that is only
      passed along is a [Z].
    - An object that is serialised with [JSON.stringify] and whose exact
      shape matters (nx.json, turbo.json) is a [json] tree. *)

From Stdlib Require Import Ascii NArith ZArith.
From stdpp Require Import base strings list gmap fin_maps.

Local Open Scope char_scope.
Local Open Scope stdpp_scope.

(** ** src/utils/name-sanitizer.ts *)

Module NameSanitizer.

(** Character classes of the regular expressions. *)
Definition in_range (lo hi c : ascii) : bool :=
  ((N_of_ascii lo <=? N_of_ascii c) && (N_of_ascii c <=? N_of_ascii hi))%N.

Definition is_lower (c : ascii) : bool := in_range "a" "z" c.   (* [a-z] *)
Definition is_upper (c : ascii) : bool := in_range "A" "Z" c.   (* [A-Z] *)
Definition is_digit (c : ascii) : bool := in_range "0" "9" c.   (* [0-9] *)
Definition is_letter (c : ascii) : bool := is_lower c || is_upper c.
Definition is_alnum (c : ascii) : bool := is_letter c || is_digit c. (* [a-zA-Z0-9] *)
Definition is_separator (c : ascii) : bool :=                    (* [-_] *)
  Ascii.eqb c "-" || Ascii.eqb c "_".

(** [letter.toUpperCase()] on one character; the sources only apply it to
    a character matched by [[a-z]]. *)
Definition toUpperCase (c : ascii) : ascii :=
  if is_lower c then ascii_of_N (N_of_ascii c - 32) else c.

(** [.replace(/[-_]([a-z])/g, (_, letter) => letter.toUpperCase())]:
    a left-to-right scan; a separator followed by a lower-case letter is
    consumed as one match, any other character is copied. *)
Fixpoint camelCase (s : string) : string :=
  match s with
  | EmptyString => EmptyString
  | String c rest =>
      match rest with
      | String d rest' =>
          if is_separator c && is_lower d
          then String (toUpperCase d) (camelCase rest')
          else String c (camelCase rest)
      | EmptyString => String c EmptyString
      end
  end.

(** [.replace(/[^a-zA-Z0-9]/g, '')] *)
Fixpoint stripNonAlnum (s : string) : string :=
  match s with
  | EmptyString => EmptyString
  | String c rest =>
      if is_alnum c then String c (stripNonAlnum rest) else stripNonAlnum rest
  end.

(** [.replace(/^[0-9]/, '_$&')] *)
Definition prefixLeadingDigit (s : string) : string :=
  match s with
  | String c _ => if is_digit c then String "_" s else s
  | EmptyString => EmptyString
  end.

Definition sanitizeModuleFederationName (name : string) : string :=
  prefixLeadingDigit (stripNonAlnum (camelCase name)).

(** [/^[a-zA-Z_$][a-zA-Z0-9_$]*$/.test(name)] *)
Definition is_ident_start (c : ascii) : bool :=
  is_letter c || Ascii.eqb c "_" || Ascii.eqb c "$".
Definition is_ident_part (c : ascii) : bool :=
  is_alnum c || Ascii.eqb c "_" || Ascii.eqb c "$".

Fixpoint all_chars (p : ascii -> bool) (s : string) : bool :=
  match s with
  | EmptyString => true
  | String c rest => p c && all_chars p rest
  end.

Fixpoint some_char (p : ascii -> bool) (s : string) : bool :=
  match s with
  | EmptyString => false
  | String c rest => p c || some_char p rest
  end.

Definition isValidIdentifier (name : string) : bool :=
  match name with
  | EmptyString => false
  | String c rest => is_ident_start c && all_chars is_ident_part rest
  end.

End NameSanitizer.

Import NameSanitizer.

(** ** src/types/index.ts and src/types/config.ts *)

Module Types.

Inductive AppType := Host | Remote.
Inductive Framework := React | Vue.
Inductive MonorepoTool := Nx | Turborepo | PnpmWorkspaces.
Inductive PackageManager := Npm | Yarn | Pnpm.

Record ProjectConfig := {
  pc_type : AppType;
  pc_name : string;
  pc_port : Z;
  pc_framework : Framework;
  pc_typescript : bool;
  pc_isMonorepo : bool;
  pc_monorepoTool : option MonorepoTool;
  pc_packageManager : PackageManager
}.

Record RemoteReference := { rr_name : string; rr_url : string }.

Record SharedDependency := {
  singleton : option bool;
  strictVersion : option bool;
  requiredVersion : option string;
  eager : option bool
}.

(** Element type of [MicroFrontendConfig.remotes]. *)
Record RemoteEntry := {
  re_name : string;
  re_url : string;
  re_entry : option string
}.

Record BuildConfig := {
  outputPath : option string;
  publicPath : option string
}.

Record DevServerConfig := {
  hot : option bool;
  historyApiFallback : option bool;
  cors : option bool
}.

Record MicroFrontendConfig := {
  mfc_name : string;
  mfc_type : AppType;
  mfc_port : Z;
  mfc_framework : Framework;
  mfc_exposes : option (gmap string string);
  mfc_remotes : option (list RemoteEntry);
  mfc_shared : option (gmap string SharedDependency);
  mfc_build : option BuildConfig;
  mfc_devServer : option DevServerConfig
}.

(** [shared] also admits plain version strings; the generators only
    produce attribute records. *)
Record ModuleFederationConfig := {
  fc_name : string;
  fc_filename : option string;
  fc_exposes : option (gmap string string);
  fc_remotes : option (gmap string string);
  fc_shared : option (gmap string SharedDependency)
}.

End Types.

Import Types.

(** ** src/config/config-generator.ts *)

Module ConfigGenerator.

Definition generateSharedConfig (framework : Framework)
  : gmap string SharedDependency :=
  match framework with
  | React =>
      <["react" := {| singleton := Some true;
                      requiredVersion := Some "^18.0.0";
                      strictVersion := Some false;
                      eager := Some false |}]>
      (<["react-dom" := {| singleton := Some true;
                           requiredVersion := Some "^18.0.0";
                           strictVersion := Some false;
                           eager := Some false |}]> ∅)
  | Vue =>
      <["vue" := {| singleton := Some true;
                    requiredVersion := Some "^3.0.0";
                    strictVersion := Some false;
                    eager := Some false |}]> ∅
  end.

(** The arrow function mapped over [remotes] in [generateHostConfig]. *)
Definition toRemoteEntry (r : RemoteReference) : RemoteEntry :=
  {| re_name := rr_name r;
     re_url := rr_url r;
     re_entry := Some "remoteEntry.js" |}.

Definition generateHostConfig (name : string) (port : Z)
    (framework : Framework) (remotes : list RemoteReference)
  : MicroFrontendConfig :=
  {| mfc_name := sanitizeModuleFederationName name;
     mfc_type := Host;
     mfc_port := port;
     mfc_framework := framework;
     mfc_exposes := None;
     mfc_remotes :=
       Some (toRemoteEntry <$> remotes);
     mfc_shared := Some (generateSharedConfig framework);
     mfc_build := Some {| outputPath := Some "dist";
                          publicPath := Some "auto" |};
     mfc_devServer := Some {| hot := Some true;
                              historyApiFallback := Some true;
                              cors := Some true |} |}.

(** The default value of the parameter [exposes]. *)
Definition defaultExposes : gmap string string :=
  <["./App" := "./src/App"]> ∅.

(** [exposes = None] is a call that leaves the fourth argument out (or
    passes [undefined]): only then does JavaScript use the default. *)
Definition generateRemoteConfig (name : string) (port : Z)
    (framework : Framework) (exposes : option (gmap string string))
  : MicroFrontendConfig :=
  let exposes := default defaultExposes exposes in
  {| mfc_name := sanitizeModuleFederationName name;
     mfc_type := Remote;
     mfc_port := port;
     mfc_framework := framework;
     mfc_exposes := Some exposes;
     mfc_remotes := None;
     mfc_shared := Some (generateSharedConfig framework);
     mfc_build := Some {| outputPath := Some "dist";
                          publicPath := Some "auto" |};
     mfc_devServer := Some {| hot := Some true;
                              historyApiFallback := Some true;
                              cors := Some true |} |}.

(** How a call completes.  The error names are those of the
    specification's taxonomy; the sources declare no error type. *)
Inductive SynthesisError :=
| InvalidProjectName | InvalidPort | InvalidRemoteName | MissingRemoteUrl
| UnsupportedFramework | UnsupportedMonorepoTool | FileSystemFailure.

Inductive completion (A : Type) :=
| Returns (value : A)
| Throws (error : SynthesisError).
Arguments Returns {A} value.
Arguments Throws {A} error.

(** A call of [generateHostConfig]: its body is one [return] of an
    object literal built with [Array.prototype.map] and the sanitizer;
    it has no [throw] and no call that can throw. *)
Definition call_generateHostConfig (name : string) (port : Z)
    (framework : Framework) (remotes : list RemoteReference)
  : completion MicroFrontendConfig :=
  Returns (generateHostConfig name port framework remotes).

End ConfigGenerator.

(** ** src/config/federation-config.ts *)

Module FederationConfig.

Definition getSharedDependencies (framework : Framework)
  : gmap string SharedDependency :=
  match framework with
  | React =>
      <["react" := {| singleton := Some true;
                      requiredVersion := Some "^18.0.0";
                      strictVersion := Some false;
                      eager := Some false |}]>
      (<["react-dom" := {| singleton := Some true;
                           requiredVersion := Some "^18.0.0";
                           strictVersion := Some false;
                           eager := Some false |}]> ∅)
  | Vue =>
      <["vue" := {| singleton := Some true;
                    requiredVersion := Some "^3.0.0";
                    strictVersion := Some false;
                    eager := Some false |}]> ∅
  end.



Definition generateRemoteFederationConfig (name : string)
    (exposes : gmap string string) (framework : Framework)
  : ModuleFederationConfig :=
  {| fc_name := name;
     fc_filename := Some "remoteEntry.js";
     fc_exposes := Some exposes;
     fc_remotes := None;
     fc_shared := Some (getSharedDependencies framework) |}.

End FederationConfig.

Import ConfigGenerator FederationConfig.

(** ** src/utils/package-generator.ts *)

Module PackageGenerator.

Record PackageJson := {
  pkg_name : string;
  pkg_version : string;
  pkg_description : string;
  pkg_private : bool;
  pkg_scripts : gmap string string;
  pkg_dependencies : gmap string string;
  pkg_devDependencies : gmap string string
}.

Definition getDependencies (config : ProjectConfig) : gmap string string :=
  match pc_framework config with
  | React => <["react-dom" := "^18.2.0"]> (<["react" := "^18.2.0"]> ∅)
  | Vue => <["vue" := "^3.4.0"]> ∅
  end.

Definition getDevDependencies (config : ProjectConfig) : gmap string string :=
  let devDeps : gmap string string :=
    list_to_map
      [("webpack", "^5.89.0"); ("webpack-cli", "^5.1.4");
       ("webpack-dev-server", "^4.15.1"); ("html-webpack-plugin", "^5.6.0");
       ("babel-loader", "^9.1.3"); ("@babel/core", "^7.23.7");
       ("@babel/preset-env", "^7.23.7"); ("@babel/preset-react", "^7.23.3");
       ("style-loader", "^3.3.4"); ("css-loader", "^6.9.0")] in
  let devDeps :=
    if pc_typescript config then
      let devDeps :=
        <["fork-ts-checker-webpack-plugin" := "^9.0.2"]>
          (<["@babel/preset-typescript" := "^7.23.3"]>
             (<["typescript" := "^5.3.3"]> devDeps)) in
      match pc_framework config with
      | React =>
          <["@types/react-dom" := "^18.2.18"]>
            (<["@types/react" := "^18.2.48"]> devDeps)
      | Vue => devDeps
      end
    else devDeps in
  match pc_framework config with
  | Vue =>
      <["@vue/compiler-sfc" := "^3.4.0"]> (<["vue-loader" := "^17.4.2"]> devDeps)
  | React => devDeps
  end.

Definition generatePackageJson (config : ProjectConfig) (type : AppType)
  : PackageJson :=
  {| pkg_name := pc_name config;
     pkg_version := "1.0.0";
     pkg_description :=
       (match type with Host => "Host" | Remote => "Remote" end)
         +:+ " application for micro-frontend";
     pkg_private := true;
     pkg_scripts :=
       list_to_map
         [("start", "webpack serve --open"); ("dev", "webpack serve");
          ("build", "webpack --mode production"); ("clean", "rm -rf dist")];
     pkg_dependencies := getDependencies config;
     pkg_devDependencies := getDevDependencies config |}.

End PackageGenerator.

Import PackageGenerator.

(** ** src/generators/host-generator.ts *)

Module HostGenerator.

Section WithPath.
(** Node's [path.join] and [process.cwd()]. *)
Variable path_join : string -> string -> string.
Variable cwd : string.

(** What [generateHostApp] computes before it writes: the directory it
    creates, and the contents of [micro-frontend.config.json] and of
    [package.json] (each written under [projectPath] after
    [JSON.stringify]). *)
Record HostArtifacts := {
  projectPath : string;
  mfConfig : MicroFrontendConfig;
  packageJson : PackageJson
}.

Definition generateHostApp (config : ProjectConfig)
    (remotes : list RemoteReference) : HostArtifacts :=
  {| projectPath := path_join cwd (pc_name config);
     mfConfig :=
       generateHostConfig (pc_name config) (pc_port config)
                          (pc_framework config) remotes;
     packageJson := generatePackageJson config Host |}.
End WithPath.

End HostGenerator.

Import HostGenerator.

(** ** src/generators/remote-generator.ts *)

Module RemoteGenerator.

Section WithPath.
Variable path_join : string -> string -> string.
Variable cwd : string.

Record RemoteArtifacts := {
  remoteProjectPath : string;
  remoteMfConfig : MicroFrontendConfig;
  remotePackageJson : PackageJson
}.

(** The same three artefacts for a remote application; the generator
    always passes the [exposes] object [{ './App': './src/App' }]. *)
Definition generateRemoteApp (config : ProjectConfig) : RemoteArtifacts :=
  let exposes : gmap string string := <["./App" := "./src/App"]> ∅ in
  {| remoteProjectPath := path_join cwd (pc_name config);
     remoteMfConfig :=
       generateRemoteConfig (pc_name config) (pc_port config)
                            (pc_framework config) (Some exposes);
     remotePackageJson := generatePackageJson config Remote |}.
End WithPath.

End RemoteGenerator.

Import RemoteGenerator.

(** ** src/templates/webpack.config.template.js *)

Module WebpackTemplate.

(** Options handed to [ModuleFederationPlugin]. *)
Record ModuleFederationOptions := {
  mf_name : string;
  mf_filename : string;
  mf_exposes : option (gmap string string);
  mf_remotes : option (gmap string string);
  mf_shared : gmap string SharedDependency
}.

(** The template literal [`${remote.name}@${remote.url}`]. *)
Definition remoteReference (remote : RemoteEntry) : string :=
  re_name remote +:+ "@" +:+ re_url remote.

(** The body of the [forEach]: [remotes[remote.name] = ...], on the object
    created by [{}].  Such an object inherits the accessor [__proto__] from
    [Object.prototype]; assigning a string to that property is ignored and
    creates no property.  Every other name becomes an own property, or
    overwrites the one of that name. *)
Definition assign (acc : gmap string string) (remote : RemoteEntry)
  : gmap string string :=
  if decide (re_name remote = "__proto__") then acc
  else <[re_name remote := remoteReference remote]> acc.

(** [const remotes = {}; if (host && mfConfig.remotes) forEach ...] *)
Definition remotes (mfConfig : MicroFrontendConfig) : gmap string string :=
  match mfc_type mfConfig, mfc_remotes mfConfig with
  | Host, Some rs => foldl assign ∅ rs
  | _, _ => ∅
  end.

Definition moduleFederationConfig (mfConfig : MicroFrontendConfig)
  : ModuleFederationOptions :=
  {| mf_name := mfc_name mfConfig;
     mf_filename := "remoteEntry.js";
     mf_exposes :=
       match mfc_type mfConfig, mfc_exposes mfConfig with
       | Remote, Some exposes => Some exposes
       | _, _ => None
       end;
     mf_remotes :=
       match mfc_type mfConfig with
       | Host =>
           if (0 <? size (remotes mfConfig))%nat
           then Some (remotes mfConfig) else None
       | Remote => None
       end;
     mf_shared := default ∅ (mfc_shared mfConfig) |}.

(** [value || fallback] for an optional string: [undefined] and the empty
    string are falsy. *)
Definition orElse (value : option string) (fallback : string) : string :=
  match value with
  | Some (String _ _ as v) => v
  | _ => fallback
  end.

(** [flag !== false] for an optional boolean. *)
Definition notFalse (flag : option bool) : bool :=
  match flag with
  | Some false => false
  | _ => true
  end.

(** [devServer] of the exported configuration; [ds_directory] is the
    argument joined to [__dirname]. *)
Record DevServer := {
  ds_directory : string;
  ds_port : Z;
  ds_historyApiFallback : bool;
  ds_hot : bool;
  ds_headers : gmap string string
}.

Definition devServer (mfConfig : MicroFrontendConfig) : DevServer :=
  {| ds_directory := orElse (mfc_build mfConfig ≫= outputPath) "dist";
     ds_port := mfc_port mfConfig;
     ds_historyApiFallback :=
       notFalse (mfc_devServer mfConfig ≫= historyApiFallback);
     ds_hot := notFalse (mfc_devServer mfConfig ≫= hot);
     ds_headers :=
       if notFalse (mfc_devServer mfConfig ≫= cors)
       then <["Access-Control-Allow-Origin" := "*"]> ∅
       else ∅ |}.

(** [output] of the exported configuration; [out_path] is the argument
    resolved against [__dirname]. *)
Record Output := {
  out_path : string;
  out_publicPath : string;
  out_clean : bool
}.

Definition output (mfConfig : MicroFrontendConfig) : Output :=
  {| out_path := orElse (mfc_build mfConfig ≫= outputPath) "dist";
     out_publicPath := orElse (mfc_build mfConfig ≫= publicPath) "auto";
     out_clean := true |}.

(** The npm packages the template loads: by [require], as loaders of
    [module.rules], and as presets of [babel-loader]. *)
Definition requiredPackages : list string := ["html-webpack-plugin"; "webpack"].
Definition loaders : list string := ["babel-loader"; "style-loader"; "css-loader"].
Definition presets : list string :=
  ["@babel/preset-env"; "@babel/preset-react"; "@babel/preset-typescript"].

End WebpackTemplate.

Import WebpackTemplate.

(** ** src/generators/monorepo-generator.ts *)

Module MonorepoGenerator.

(** The value given to [JSON.stringify]; an object keeps its properties
    in the order of the literal. *)
#[local] Set Warnings "-register-all".
Inductive json :=
| JNull
| JBool (b : bool)
| JNum (n : Z)
| JStr (s : string)
| JArr (items : list json)
| JObj (properties : list (string * json)).

Fixpoint property (key : string) (properties : list (string * json))
  : option json :=
  match properties with
  | [] => None
  | (k, v) :: rest => if String.eqb k key then Some v else property key rest
  end.

(** [j[key]] for an object [j]. *)
Definition jget (key : string) (j : json) : option json :=
  match j with
  | JObj properties => property key properties
  | _ => None
  end.

(** [j[k1][k2]...] *)
Fixpoint jpath (keys : list string) (j : json) : option json :=
  match keys with
  | [] => Some j
  | key :: rest =>
      match jget key j with
      | Some j' => jpath rest j'
      | None => None
      end
  end.

(** The object literal of [generateNxWorkspace]. *)
Definition nxConfig : json :=
  JObj
    [("extends", JStr "nx/presets/npm.json");
     ("tasksRunnerOptions",
      JObj [("default",
             JObj [("runner", JStr "nx/tasks-runners/default");
                   ("options",
                    JObj [("cacheableOperations",
                           JArr [JStr "build"; JStr "test"; JStr "lint"])])])]);
     ("targetDefaults",
      JObj [("build",
             JObj [("dependsOn", JArr [JStr "^build"]);
                   ("outputs", JArr [JStr "{projectRoot}/dist"])]);
            ("dev", JObj [("dependsOn", JArr [JStr "^build"])])])].

(** The object literal of [generateTurborepoConfig]. *)
Definition turboConfig : json :=
  JObj
    [("$schema", JStr "https://turbo.build/schema.json");
     ("pipeline",
      JObj [("build",
             JObj [("dependsOn", JArr [JStr "^build"]);
                   ("outputs", JArr [JStr "dist/**"])]);
            ("dev", JObj [("cache", JBool false); ("persistent", JBool true)]);
            ("clean", JObj [("cache", JBool false)])])].

Section WithPath.
Variable path_join : string -> string -> string.

(** Each generator writes one file: its path and the value serialised
    into it.  Neither reads [config]. *)
Definition generateNxWorkspace (rootPath : string) (config : ProjectConfig)
  : string * json :=
  (path_join rootPath "nx.json", nxConfig).

Definition generateTurborepoConfig (rootPath : string) (config : ProjectConfig)
  : string * json :=
  (path_join rootPath "turbo.json", turboConfig).
End WithPath.

(** *** Reading a task pipeline out of the emitted file

    Turborepo keeps its tasks under [pipeline], Nx its per-target defaults
    under [targetDefaults]; pnpm workspaces have a YAML member list and no
    task pipeline. *)
Definition workspaceFile (tool : MonorepoTool) : option json :=
  match tool with
  | Nx => Some nxConfig
  | Turborepo => Some turboConfig
  | PnpmWorkspaces => None
  end.

Definition taskTable (tool : MonorepoTool) : string :=
  match tool with
  | Nx => "targetDefaults"
  | Turborepo => "pipeline"
  | PnpmWorkspaces => EmptyString
  end.

(** The entry of [task] in the tool's task table. *)
Definition taskEntry (tool : MonorepoTool) (task : string) : option json :=
  workspaceFile tool ≫= jpath [taskTable tool; task].

(** One attribute of a task ([dependsOn], [outputs], [cache], ...). *)
Definition taskAttr (tool : MonorepoTool) (task attr : string) : option json :=
  taskEntry tool task ≫= jget attr.

(** The names of all tasks listed in the tool's task table. *)
Definition taskNames (tool : MonorepoTool) : list string :=
  match workspaceFile tool ≫= jget (taskTable tool) with
  | Some (JObj properties) => fst <$> properties
  | _ => []
  end.

Definition json_strings (j : option json) : list string :=
  match j with
  | Some (JArr items) =>
      omap (fun i => match i with JStr s => Some s | _ => None end) items
  | _ => []
  end.

(** Whether the tool caches the results of [task]: Turborepo caches every
    task unless its entry says [cache: false]; Nx (with the default tasks
    runner configured here) caches exactly the targets named in
    [cacheableOperations]. *)
Definition cacheable (tool : MonorepoTool) (task : string) : bool :=
  match tool with
  | Turborepo =>
      match taskAttr Turborepo task "cache" with
      | Some (JBool false) => false
      | _ => true
      end
  | Nx =>
      bool_decide
        (task ∈ json_strings
           (jpath ["tasksRunnerOptions"; "default"; "options";
                   "cacheableOperations"] nxConfig))
  | PnpmWorkspaces => false
  end.

(** [task'] names [task] in its [dependsOn], either as a task of the same
    package or, with [^], of the packages it depends on. *)
Definition dependsOn (tool : MonorepoTool) (task' task : string) : Prop :=
  task ∈ json_strings (taskAttr tool task' "dependsOn")
  ∨ ("^" +:+ task) ∈ json_strings (taskAttr tool task' "dependsOn").

End MonorepoGenerator.

Import MonorepoGenerator.

(** ** Vocabulary of the statements *)

(** The attribute record shared by all entries of a policy. *)
Definition policy (version : string) : SharedDependency :=
  {| singleton := Some true;
     requiredVersion := Some version;
     strictVersion := Some false;
     eager := Some false |}.

(** The task pipeline as the specification words it for Nx and Turborepo:
    [build] waits for the builds of the packages it depends on and caches
    its outputs; [dev] is not cached and is marked persistent; [clean] is
    not cached and no task depends on it. *)
Definition pipelineAsSpecified (tool : MonorepoTool) : Prop :=
  "^build" ∈ json_strings (taskAttr tool "build" "dependsOn")
  /\ cacheable tool "build" = true
  /\ json_strings (taskAttr tool "build" "outputs") <> []
  /\ cacheable tool "dev" = false
  /\ taskAttr tool "dev" "persistent" = Some (JBool true)
  /\ cacheable tool "clean" = false
  /\ forall task, task ∈ taskNames tool -> ~ dependsOn tool task "clean".

(** ** src/utils/file-utils.ts *)

Module FileUtils.

Record NameValidation := {
  nv_valid : bool;
  nv_message : option string
}.

(** The class [[a-z0-9-_]]: after the range [0-9] the hyphen and the
    underscore stand for themselves. *)
Definition is_project_char (c : ascii) : bool :=
  is_lower c || is_digit c || Ascii.eqb c "-" || Ascii.eqb c "_".

(** [/^[a-z0-9-_]+$/.test(name)] *)
Definition matchesProjectName (name : string) : bool :=
  match name with
  | EmptyString => false
  | String _ _ => all_chars is_project_char name
  end.

(** [name.startsWith(c)] for a one-character prefix. *)
Definition startsWith (c : ascii) (name : string) : bool :=
  match name with
  | String d _ => Ascii.eqb d c
  | EmptyString => false
  end.

Definition validateProjectName (name : string) : NameValidation :=
  match name with
  | EmptyString =>
      {| nv_valid := false; nv_message := Some "Project name is required" |}
  | String _ _ =>
      if negb (matchesProjectName name) then
        {| nv_valid := false;
           nv_message :=
             Some "Project name must contain only lowercase letters, numbers, hyphens, and underscores" |}
      else if startsWith "-" name || startsWith "_" name then
        {| nv_valid := false;
           nv_message := Some "Project name cannot start with a hyphen or underscore" |}
      else {| nv_valid := true; nv_message := None |}
  end.

(** [str.replace(/-([a-z])/g, (g) => g[1].toUpperCase())] *)
Fixpoint toCamelCase (str : string) : string :=
  match str with
  | EmptyString => EmptyString
  | String c rest =>
      match rest with
      | String d rest' =>
          if Ascii.eqb c "-" && is_lower d
          then String (toUpperCase d) (toCamelCase rest')
          else String c (toCamelCase rest)
      | EmptyString => String c EmptyString
      end
  end.

End FileUtils.

Import FileUtils.

(** ** src/utils/prompts.ts *)

Module Prompts.

(** What a [validate] callback returns: [true], or the message to show. *)
Inductive Validation :=
| Accepted
| Rejected (message : string).

(** [validate] of the question [name] in [promptProjectDetails]. *)
Definition validateProjectNameInput (input : string) : Validation :=
  match input with
  | EmptyString => Rejected "Project name is required"
  | String _ _ =>
      if negb (matchesProjectName input) then
        Rejected "Project name must contain only lowercase letters, numbers, hyphens, and underscores"
      else Accepted
  end.

(** The class [[a-zA-Z0-9_]]. *)
Definition is_remote_char (c : ascii) : bool :=
  is_alnum c || Ascii.eqb c "_".

(** [validate] of the question [name] in [promptRemoteDetails]. *)
Definition validateRemoteNameInput (input : string) : Validation :=
  match input with
  | EmptyString => Rejected "Remote name is required"
  | String _ _ =>
      if negb (all_chars is_remote_char input) then
        Rejected "Remote name must contain only letters, numbers, and underscores"
      else Accepted
  end.

(** [validate] of the question [url] in [promptRemoteDetails]. *)
Definition validateRemoteUrlInput (input : string) : Validation :=
  match input with
  | EmptyString => Rejected "URL is required"
  | String _ _ => Accepted
  end.

End Prompts.

Import Prompts.

(** ** A scan that both casing functions instantiate *)

(** [.replace(/S([a-z])/g, ...)] for a one-character class [S]:
    [camelCase] is the scan for [[-_]], [toCamelCase] the scan for [-]. *)
Fixpoint upperAfter (sep : ascii -> bool) (s : string) : string :=
  match s with
  | EmptyString => EmptyString
  | String c rest =>
      match rest with
      | String d rest' =>
          if sep c && is_lower d
          then String (toUpperCase d) (upperAfter sep rest')
          else String c (upperAfter sep rest)
      | EmptyString => String c EmptyString
      end
  end.

(** No separator of [s] is followed by a lower-case letter. *)
Fixpoint settled (sep : ascii -> bool) (s : string) : bool :=
  match s with
  | EmptyString => true
  | String c rest =>
      match rest with
      | String d _ => negb (sep c && is_lower d) && settled sep rest
      | EmptyString => true
      end
  end.

Definition headNotLower (s : string) : bool :=
  match s with
  | String c _ => negb (is_lower c)
  | EmptyString => true
  end.

Definition is_hyphen (c : ascii) : bool := Ascii.eqb c "-".

(** A configuration record with the optional sections [build] and
    [devServer] left out. *)
Definition withoutSections (mfConfig : MicroFrontendConfig) : MicroFrontendConfig :=
  {| mfc_name := mfc_name mfConfig;
     mfc_type := mfc_type mfConfig;
     mfc_port := mfc_port mfConfig;
     mfc_framework := mfc_framework mfConfig;
     mfc_exposes := mfc_exposes mfConfig;
     mfc_remotes := mfc_remotes mfConfig;
     mfc_shared := mfc_shared mfConfig;
     mfc_build := None;
     mfc_devServer := None |}.

(** The part of a version range before its first dot: [^18] of [^18.2.0]. *)
Fixpoint majorOf (range : string) : string :=
  match range with
  | EmptyString => EmptyString
  | String c rest =>
      if Ascii.eqb c "." then EmptyString else String c (majorOf rest)
  end.

(** ** The generators as programs over the file system

    [HostGenerator], [RemoteGenerator] and [MonorepoGenerator] above give
    the values that the generators compute.  Here are the same functions
    with their effects: the working directory of the process, and the
    directories and files they create, in program order.  File contents are
    left out.  Any file-system call may fail, which rejects the promise
    and, with [await], ends the calling function. *)

Module Scaffold.

Record World := {
  cwd : string;            (* [process.cwd()] *)
  touched : list string    (* paths created or written so far, oldest first *)
}.

Definition IO (A : Type) : Type := World -> completion A * World.

#[global] Instance IO_ret : MRet IO := fun A a w => (Returns a, w).

#[global] Instance IO_bind : MBind IO := fun A B f m w =>
  match m w with
  | (Returns a, w') => f a w'
  | (Throws e, w') => (Throws e, w')
  end.

(** [try { body } finally { cleanup }] *)
Definition tryFinally {A} (body : IO A) (cleanup : IO unit) : IO A := fun w =>
  match body w with
  | (result, w') =>
      match cleanup w' with
      | (Returns _, w'') => (result, w'')
      | (Throws e, w'') => (Throws e, w'')
      end
  end.

Definition processCwd : IO string := fun w => (Returns (cwd w), w).

(** [process.chdir(directory)], to a directory that exists and is named by
    its canonical path, so that [process.cwd()] then returns [directory]. *)
Definition chdir (directory : string) : IO unit := fun w =>
  (Returns tt, {| cwd := directory; touched := touched w |}).

Definition skip : IO unit := mret tt.

(** A program is [steady] when, whatever its outcome, it leaves the working
    directory where it was and only adds to the paths already touched. *)
Definition steady {A} (m : IO A) : Prop :=
  forall w,
    cwd (m w).2 = cwd w /\ touched w `prefix_of` touched (m w).2.

(** A program [fails_by_refusal] when it can only end in
    [FileSystemFailure], and only if the file system refuses some path. *)
Definition fails_by_refusal (fs_ok : string -> bool) {A} (m : IO A) : Prop :=
  forall w e w',
    m w = (Throws e, w') ->
    e = FileSystemFailure /\ exists target, fs_ok target = false.

Section WithEnvironment.
(** Node's variadic [path.join]. *)
Variable path_join : list string -> string.
(** Whether the file system lets the process create or write a path. *)
Variable fs_ok : string -> bool.

(** [fs.ensureDir], [fs.writeFile] and [fs.copyFile], by their target. *)
Definition touch (target : string) : IO unit := fun w =>
  if fs_ok target
  then (Returns tt, {| cwd := cwd w; touched := touched w ++ [target] |})
  else (Throws FileSystemFailure, w).

Definition ext (config : ProjectConfig) : string :=
  if pc_typescript config then "tsx" else "jsx".

(** *** src/generators/host-generator.ts *)

Definition generateHostSourceFiles (projectPath : string)
    (config : ProjectConfig) (remotes : list RemoteReference) : IO unit :=
  touch (path_join [projectPath; "src";
                    "bootstrap." +:+ (if String.eqb (ext config) "tsx" then "tsx" else "jsx")]);;
  touch (path_join [projectPath; "src";
                    "index." +:+ (if String.eqb (ext config) "tsx" then "ts" else "js")]);;
  touch (path_join [projectPath; "src"; "App." +:+ ext config]);;
  touch (path_join [projectPath; "public"; "index.html"]);;
  match pc_framework config with
  | React =>
      touch (path_join [projectPath; "src"; "components";
                        "ErrorBoundary." +:+ ext config])
  | Vue => skip
  end;;
  if pc_typescript config && (0 <? length remotes)%nat
  then touch (path_join [projectPath; "src"; "remotes.d.ts"])
  else skip.

Definition generateHostApp (config : ProjectConfig)
    (remotes : list RemoteReference) : IO unit :=
  current ← processCwd;
  let projectPath := path_join [current; pc_name config] in
  touch projectPath;;
  touch (path_join [projectPath; "src"]);;
  touch (path_join [projectPath; "public"]);;
  touch (path_join [projectPath; "src"; "components"]);;
  touch (path_join [projectPath; "micro-frontend.config.json"]);;
  touch (path_join [projectPath; "webpack.config.js"]);;
  touch (path_join [projectPath; "package.json"]);;
  (if pc_typescript config
   then touch (path_join [projectPath; "tsconfig.json"]) else skip);;
  generateHostSourceFiles projectPath config remotes;;
  touch (path_join [projectPath; "README.md"]);;
  touch (path_join [projectPath; ".gitignore"]);;
  touch (path_join [projectPath; ".env.example"]).

(** *** src/generators/remote-generator.ts *)

Definition generateRemoteSourceFiles (projectPath : string)
    (config : ProjectConfig) : IO unit :=
  touch (path_join [projectPath; "src";
                    "bootstrap." +:+ (if String.eqb (ext config) "tsx" then "tsx" else "jsx")]);;
  touch (path_join [projectPath; "src";
                    "index." +:+ (if String.eqb (ext config) "tsx" then "ts" else "js")]);;
  touch (path_join [projectPath; "src"; "App." +:+ ext config]);;
  (if pc_typescript config
   then touch (path_join [projectPath; "src"; "types.ts"]) else skip);;
  touch (path_join [projectPath; "src"; "components"; "Counter." +:+ ext config]);;
  touch (path_join [projectPath; "public"; "index.html"]);;
  if pc_typescript config
  then touch (path_join [projectPath; "src"; "types.d.ts"]) else skip.

Definition generateRemoteApp (config : ProjectConfig) : IO unit :=
  current ← processCwd;
  let projectPath := path_join [current; pc_name config] in
  touch projectPath;;
  touch (path_join [projectPath; "src"]);;
  touch (path_join [projectPath; "public"]);;
  touch (path_join [projectPath; "src"; "components"]);;
  touch (path_join [projectPath; "micro-frontend.config.json"]);;
  touch (path_join [projectPath; "webpack.config.js"]);;
  touch (path_join [projectPath; "package.json"]);;
  (if pc_typescript config
   then touch (path_join [projectPath; "tsconfig.json"]) else skip);;
  generateRemoteSourceFiles projectPath config;;
  touch (path_join [projectPath; "README.md"]);;
  touch (path_join [projectPath; ".gitignore"]).

(** *** src/generators/type-generator.ts *)

Definition generateSharedTypesPackage (rootPath : string) : IO unit :=
  let typesPath := path_join [rootPath; "packages"; "shared-types"] in
  touch typesPath;;
  touch (path_join [typesPath; "src"]);;
  touch (path_join [typesPath; "package.json"]);;
  touch (path_join [typesPath; "tsconfig.json"]);;
  touch (path_join [typesPath; "src"; "index.ts"]);;
  touch (path_join [typesPath; "README.md"]).

(** *** src/generators/monorepo-generator.ts *)

Definition generateHostInMonorepo (rootPath : string) (config : ProjectConfig)
    (remotes : list RemoteReference) : IO unit :=
  originalCwd ← processCwd;
  let packagesPath := path_join [rootPath; "packages"] in
  chdir packagesPath;;
  tryFinally (generateHostApp config remotes) (chdir originalCwd).

Definition generateRemoteInMonorepo (rootPath : string) (config : ProjectConfig)
  : IO unit :=
  originalCwd ← processCwd;
  let packagesPath := path_join [rootPath; "packages"] in
  chdir packagesPath;;
  tryFinally (generateRemoteApp config) (chdir originalCwd).

Definition setupMonorepo (config : ProjectConfig)
    (remotes : list RemoteReference) : IO unit :=
  current ← processCwd;
  let rootPath := path_join [current; pc_name config] in
  touch rootPath;;
  touch (path_join [rootPath; "packages"]);;
  touch (path_join [rootPath; "package.json"]);;
  match pc_monorepoTool config with
  | Some PnpmWorkspaces => touch (path_join [rootPath; "pnpm-workspace.yaml"])
  | Some Nx => touch (path_join [rootPath; "nx.json"])
  | Some Turborepo => touch (path_join [rootPath; "turbo.json"])
  | None => skip
  end;;
  match pc_type config with
  | Host => generateHostInMonorepo rootPath config remotes
  | Remote => generateRemoteInMonorepo rootPath config
  end;;
  (if pc_typescript config then generateSharedTypesPackage rootPath else skip);;
  touch (path_join [rootPath; "README.md"]);;
  touch (path_join [rootPath; ".gitignore"]).

End WithEnvironment.

End Scaffold.

(** * Properties *)

(** ** Characters *)

(** Facts about single characters are settled by running through the 256
    values. *)
Ltac each_ascii c :=
  destruct c as [[] [] [] [] [] [] [] []]; vm_compute; try reflexivity;
  try discriminate; intuition discriminate.

Lemma toUpperCase_letter c : is_lower c = true -> is_letter (toUpperCase c) = true.
Proof. each_ascii c. Qed.

Lemma letter_alnum c : is_letter c = true -> is_alnum c = true.
Proof. unfold is_alnum. intros ->. reflexivity. Qed.

Lemma alnum_not_separator c : is_alnum c = true -> is_separator c = false.
Proof. each_ascii c. Qed.

Lemma alnum_cases c :
  is_alnum c = true -> is_digit c = true \/ (is_digit c = false /\ is_letter c = true).
Proof. each_ascii c. Qed.

Lemma digit_not_lower c : is_digit c = true -> is_lower c = false.
Proof. each_ascii c. Qed.

Lemma alnum_ident_part c : is_alnum c = true -> is_ident_part c = true.
Proof. unfold is_ident_part. intros ->. reflexivity. Qed.

Lemma letter_ident_start c : is_letter c = true -> is_ident_start c = true.
Proof. unfold is_ident_start. intros ->. reflexivity. Qed.

Lemma alnum_not_hyphen c : is_alnum c = true -> Ascii.eqb c "-" = false.
Proof. each_ascii c. Qed.

(** ** Strings *)

(** Induction following the recursion of [camelCase], which looks at two
    characters at a time. *)
Lemma string_pair_ind (P : string -> Prop) :
  P EmptyString ->
  (forall c, P (String c EmptyString)) ->
  (forall c d s, P s -> P (String d s) -> P (String c (String d s))) ->
  forall s, P s.
Proof.
  intros Hnil Hone Hstep s.
  assert (P s /\ forall c, P (String c s)) as [H _]; [| exact H].
  induction s as [| d s [IH1 IH2]]; split; auto.
Qed.

Lemma all_chars_impl (p q : ascii -> bool) s :
  (forall c, p c = true -> q c = true) ->
  all_chars p s = true -> all_chars q s = true.
Proof.
  intros Hpq. induction s as [| c s IH]; simpl; [done |].
  intros [Hc Hs]%andb_true_iff. rewrite (Hpq _ Hc), (IH Hs). done.
Qed.

Lemma all_some_chars (p q : ascii -> bool) s :
  all_chars p s = true -> some_char q s = true ->
  exists c, p c = true /\ q c = true.
Proof.
  induction s as [| c s IH]; simpl; [done |].
  intros [Hc Hs]%andb_true_iff [Hq | Hq]%orb_true_iff; eauto.
Qed.

Lemma stripNonAlnum_alnum s : all_chars is_alnum (stripNonAlnum s) = true.
Proof.
  induction s as [| c s IH]; simpl; [done |].
  destruct (is_alnum c) eqn:Hc; simpl; [rewrite Hc |]; done.
Qed.

Lemma stripNonAlnum_id s : all_chars is_alnum s = true -> stripNonAlnum s = s.
Proof.
  induction s as [| c s IH]; simpl; [done |].
  intros [Hc Hs]%andb_true_iff. rewrite Hc, (IH Hs). done.
Qed.

Lemma camelCase_id s : all_chars is_alnum s = true -> camelCase s = s.
Proof.
  induction s as [| c s IH]; simpl; [done |].
  intros [Hc Hs]%andb_true_iff.
  destruct s as [| d s']; [done |].
  rewrite (alnum_not_separator _ Hc). simpl andb. cbv iota.
  rewrite (IH Hs). done.
Qed.

Lemma camelCase_keeps_letter s :
  some_char is_letter s = true -> some_char is_letter (camelCase s) = true.
Proof.
  induction s as [| c | c d s IH1 IH2] using string_pair_ind; [done.. |].
  change (camelCase (String c (String d s)))
    with (if is_separator c && is_lower d
          then String (toUpperCase d) (camelCase s)
          else String c (camelCase (String d s))).
  destruct (is_separator c && is_lower d) eqn:Hm.
  - apply andb_true_iff in Hm as [_ Hd]. intros _.
    simpl. rewrite (toUpperCase_letter _ Hd). done.
  - change (some_char is_letter (String c (String d s)))
      with (is_letter c || some_char is_letter (String d s)).
    change (some_char is_letter (String c (camelCase (String d s))))
      with (is_letter c || some_char is_letter (camelCase (String d s))).
    intros [Hc | Hs]%orb_true_iff; [rewrite Hc; done |].
    rewrite (IH2 Hs). apply orb_true_r.
Qed.

Lemma stripNonAlnum_keeps_letter s :
  some_char is_letter s = true -> some_char is_letter (stripNonAlnum s) = true.
Proof.
  induction s as [| c s IH]; simpl; [done |].
  destruct (is_letter c) eqn:Hc.
  - intros _. rewrite (letter_alnum _ Hc). simpl. rewrite Hc. done.
  - simpl. intros Hs. destruct (is_alnum c); simpl; [rewrite Hc |]; auto.
Qed.

(** The two shapes of a sanitised name. *)
Lemma sanitize_shape name :
  let y := stripNonAlnum (camelCase name) in
  all_chars is_alnum y = true /\
  (sanitizeModuleFederationName name = y /\
     (forall c r, y = String c r -> is_digit c = false)
   \/ sanitizeModuleFederationName name = String "_" y /\
     (exists c r, y = String c r /\ is_digit c = true)).
Proof.
  intros y. split; [apply stripNonAlnum_alnum |].
  unfold sanitizeModuleFederationName. fold y.
  destruct y as [| c r]; simpl.
  - left. split; [done | intros ? ? [=]].
  - destruct (is_digit c) eqn:Hc.
    + right. split; [done | eauto].
    + left. split; [done |]. intros ? ? [= <- _]. done.
Qed.

Lemma sanitize_no_hyphen name :
  all_chars (fun c => negb (Ascii.eqb c "-")) (sanitizeModuleFederationName name) = true.
Proof.
  destruct (sanitize_shape name) as [Hy [[-> _] | [-> _]]]; simpl.
  - revert Hy. apply all_chars_impl. intros c ->%alnum_not_hyphen. done.
  - revert Hy. apply all_chars_impl. intros c ->%alnum_not_hyphen. done.
Qed.

(** ** The identifier normaliser *)

Example sanitize_only_symbols : sanitizeModuleFederationName "---" = EmptyString.
Proof. reflexivity. Qed.

Example sanitize_trailing_separator : sanitizeModuleFederationName "app-" = "app".
Proof. reflexivity. Qed.

Example sanitize_upper_after_separator :
  sanitizeModuleFederationName "my_App-2" = "myApp2".
Proof. reflexivity. Qed.

(** C2, as stated, fails on its second example: an underscore before a
    lower-case letter is a separator like a hyphen, so [user_service] does
    not come back unchanged. *)
Lemma sanitize_user_service_changed :
  sanitizeModuleFederationName "user_service" <> "user_service".
Proof. vm_compute. discriminate. Qed.

(** C2 (amended): the normaliser maps [my-remote-app] to [myRemoteApp],
    [user_service] to [userService] (snake_case is camel-cased exactly like
    kebab-case) and [2fast] to [_2fast]. *)
Theorem sanitize_examples :
  sanitizeModuleFederationName "my-remote-app" = "myRemoteApp"
  /\ sanitizeModuleFederationName "user_service" = "userService"
  /\ sanitizeModuleFederationName "2fast" = "_2fast".
Proof. repeat split; reflexivity. Qed.

(** C5: the normaliser is idempotent, for every string. *)
Theorem sanitize_idempotent name :
  sanitizeModuleFederationName (sanitizeModuleFederationName name)
  = sanitizeModuleFederationName name.
Proof.
  destruct (sanitize_shape name) as [Hy [[E Hnd] | [E (c & r & Ey & Hd)]]];
    rewrite E.
  - (* no prefix was added: a second pass finds nothing to rewrite *)
    unfold sanitizeModuleFederationName at 1.
    rewrite (camelCase_id _ Hy), (stripNonAlnum_id _ Hy).
    destruct (stripNonAlnum (camelCase name)) as [| c r]; [done |].
    simpl. rewrite (Hnd c r eq_refl). done.
  - (* the prefixed underscore is stripped and put back *)
    rewrite Ey in Hy |- *.
    unfold sanitizeModuleFederationName.
    change (camelCase (String "_" (String c r)))
      with (if is_separator "_" && is_lower c
            then String (toUpperCase c) (camelCase r)
            else String "_" (camelCase (String c r))).
    rewrite (digit_not_lower _ Hd), andb_false_r.
    rewrite (camelCase_id _ Hy).
    change (stripNonAlnum (String "_" (String c r)))
      with (stripNonAlnum (String c r)).
    rewrite (stripNonAlnum_id _ Hy). simpl. rewrite Hd. done.
Qed.

(** C6: a name with at least one letter normalises to a non-empty string
    that passes [isValidIdentifier], made of letters and digits after a
    possible leading underscore. *)
Theorem sanitize_valid_identifier name :
  some_char is_letter name = true ->
  sanitizeModuleFederationName name <> EmptyString
  /\ isValidIdentifier (sanitizeModuleFederationName name) = true
  /\ exists y, all_chars is_alnum y = true
       /\ (sanitizeModuleFederationName name = y
           \/ sanitizeModuleFederationName name = String "_" y).
Proof.
  intros Hletter.
  pose proof (stripNonAlnum_keeps_letter _ (camelCase_keeps_letter _ Hletter)) as Hy1.
  destruct (sanitize_shape name) as [Hy [[E Hnd] | [E _]]]; rewrite E.
  - destruct (stripNonAlnum (camelCase name)) as [| c r] eqn:Ey; [done |].
    split; [done |]. split; [| eauto].
    simpl in Hy |- *. apply andb_true_iff in Hy as [Hc Hr].
    destruct (alnum_cases _ Hc) as [Hd | [_ Hl]].
    + rewrite (Hnd c r eq_refl) in Hd. done.
    + rewrite (letter_ident_start _ Hl). simpl.
      revert Hr. apply all_chars_impl, alnum_ident_part.
  - split; [done |]. split; [| eauto].
    simpl. revert Hy. apply all_chars_impl, alnum_ident_part.
Qed.

Lemma sanitize_valid_identifier_witness :
  some_char is_letter "my-remote-app" = true
  /\ sanitizeModuleFederationName "my-remote-app" <> EmptyString
  /\ isValidIdentifier (sanitizeModuleFederationName "my-remote-app") = true
  /\ exists y, all_chars is_alnum y = true
       /\ (sanitizeModuleFederationName "my-remote-app" = y
           \/ sanitizeModuleFederationName "my-remote-app" = String "_" y).
Proof.
  split; [reflexivity |].
  apply (sanitize_valid_identifier "my-remote-app"). reflexivity.
Defined.

(** ** The shared-dependency policy *)

(** C4: the policy is a function of the framework only; for react it has
    exactly the two entries [react] and [react-dom], for vue exactly the
    entry [vue], each a singleton that is neither strict nor eager, with
    version range [^18.0.0] and [^3.0.0] respectively. *)
Theorem generateSharedConfig_policy :
  (size (generateSharedConfig React) = 2
   /\ generateSharedConfig React !! "react" = Some (policy "^18.0.0")
   /\ generateSharedConfig React !! "react-dom" = Some (policy "^18.0.0")
   /\ forall k d, generateSharedConfig React !! k = Some d -> d = policy "^18.0.0")
  /\ (size (generateSharedConfig Vue) = 1
      /\ generateSharedConfig Vue !! "vue" = Some (policy "^3.0.0")
      /\ forall k d, generateSharedConfig Vue !! k = Some d -> d = policy "^3.0.0").
Proof.
  unfold generateSharedConfig, policy. split_and!.
  - rewrite map_size_insert_None by done. rewrite map_size_insert_None by done.
    rewrite map_size_empty. done.
  - apply lookup_insert_eq.
  - rewrite lookup_insert_ne by done. apply lookup_insert_eq.
  - intros k d. rewrite !lookup_insert. repeat case_decide; naive_solver.
  - rewrite map_size_insert_None by done. rewrite map_size_empty. done.
  - apply lookup_insert_eq.
  - intros k d. rewrite !lookup_insert. repeat case_decide; naive_solver.
Qed.

(** C10: the policy of the federation-config module and the one of the
    config-generator module are the same map, for either framework. *)
Theorem shared_policies_agree framework :
  getSharedDependencies framework = generateSharedConfig framework.
Proof. destruct framework; reflexivity. Qed.

(** ** Host and remote configuration records *)

(** C1, as stated, fails: a remote named [bad-name] does not pass
    [isValidIdentifier], and the call still returns a configuration. *)
Lemma host_config_bad_name_not_rejected :
  isValidIdentifier "bad-name" = false
  /\ call_generateHostConfig "shell" 3000 React
       [{| rr_name := "bad-name"; rr_url := "http://localhost:3001/remoteEntry.js" |}]
     <> Throws InvalidRemoteName.
Proof. split; [reflexivity | discriminate]. Qed.

(** C1 (amended): for every remotes list [generateHostConfig] returns a
    configuration; it does not look at the remotes' names, and carries each
    remote over in order with its name and url unchanged and the entry
    [remoteEntry.js], leaving [exposes] out.  So a remote named [bad-name]
    appears in the result as it is. *)
Theorem host_config_total_passthrough name port framework
    (remotes : list RemoteReference) :
  exists cfg,
    call_generateHostConfig name port framework remotes = Returns cfg
    /\ mfc_remotes cfg = Some (toRemoteEntry <$> remotes)
    /\ mfc_exposes cfg = None
    /\ forall r, r ∈ remotes -> toRemoteEntry r ∈ default [] (mfc_remotes cfg).
Proof.
  eexists. split; [reflexivity |]. split_and!; [done.. |].
  intros r Hr. simpl. by apply list_elem_of_fmap_2.
Qed.

(** C3, as stated, fails: an [exposes] argument replaces the default
    instead of extending it. *)
Lemma remote_config_default_replaced :
  default ∅ (mfc_exposes
    (generateRemoteConfig "products" 3001 React
       (Some (<["./Button" := "./src/Button"]> ∅)))) !! "./App" = None.
Proof. simpl. by rewrite lookup_insert_ne. Qed.

(** C3 (amended): called without an [exposes] argument, remote synthesis
    yields [exposes] equal to exactly [{"./App": "./src/App"}]; called with
    one, it yields that map unchanged, so the default entry is present only
    if the caller's map has it.  Either way the record has no [remotes], and
    the webpack template derives an empty remotes object from it. *)
Theorem remote_config_exposes name port framework :
  mfc_exposes (generateRemoteConfig name port framework None)
    = Some (<["./App" := "./src/App"]> ∅)
  /\ (forall exposes,
        mfc_exposes (generateRemoteConfig name port framework (Some exposes))
          = Some exposes)
  /\ (forall given,
        mfc_remotes (generateRemoteConfig name port framework given) = None
        /\ remotes (generateRemoteConfig name port framework given) = ∅).
Proof. split_and!; done. Qed.

(** ** The webpack template *)

Section WebpackRemotes.
Implicit Types (rs : list RemoteEntry) (acc : gmap string string).

Lemma assign_other rs acc k :
  k ∉ re_name <$> rs -> foldl assign acc rs !! k = acc !! k.
Proof.
  revert acc. induction rs as [| r rs IH]; intros acc Hk; [done |].
  rewrite fmap_cons, not_elem_of_cons in Hk. destruct Hk as [Hne Hk].
  simpl. rewrite (IH _ Hk). unfold assign.
  case_decide; [done |]. by rewrite lookup_insert_ne.
Qed.

(** The name [__proto__] never becomes a key. *)
Lemma assign_no_proto rs acc :
  acc !! "__proto__" = None -> foldl assign acc rs !! "__proto__" = None.
Proof.
  revert acc. induction rs as [| r rs IH]; intros acc Hacc; [done |].
  simpl. apply IH. unfold assign.
  case_decide; [done |]. by rewrite lookup_insert_ne.
Qed.

(** Entries named [__proto__] leave the object as it is. *)
Lemma assign_only_proto rs acc :
  Forall (fun remote => re_name remote = "__proto__") rs ->
  foldl assign acc rs = acc.
Proof.
  intros Hall. revert acc.
  induction Hall as [| r rs Hr _ IH]; intros acc; [done |].
  simpl. rewrite IH. unfold assign. by case_decide.
Qed.

(** The entry that comes last among those of its name decides the value. *)
Lemma assign_last before remote after acc :
  re_name remote <> "__proto__" ->
  re_name remote ∉ re_name <$> after ->
  foldl assign acc (before ++ remote :: after) !! re_name remote
  = Some (remoteReference remote).
Proof.
  intros Hname Hlast. rewrite foldl_app. simpl.
  rewrite (assign_other _ _ _ Hlast). unfold assign.
  case_decide; [done |]. apply lookup_insert_eq.
Qed.

Lemma assign_present rs acc remote :
  remote ∈ rs -> re_name remote <> "__proto__" ->
  exists remote', remote' ∈ rs /\ re_name remote' = re_name remote
    /\ foldl assign acc rs !! re_name remote = Some (remoteReference remote').
Proof.
  intros Hin Hname. revert Hin.
  induction rs as [| r rs IH] using rev_ind; [by intros ?%elem_of_nil |].
  intros Hin. rewrite foldl_app. simpl. unfold assign at 1.
  destruct (decide (re_name r = re_name remote)) as [E | Hne].
  - exists r. rewrite decide_False by congruence.
    rewrite <- E, lookup_insert_eq.
    split_and!; [| done..]. apply elem_of_app. right. by apply list_elem_of_singleton.
  - assert ((if decide (re_name r = "__proto__")
             then foldl assign acc rs
             else <[re_name r := remoteReference r]> (foldl assign acc rs))
            !! re_name remote = foldl assign acc rs !! re_name remote) as ->.
    { case_decide; [done |]. by rewrite lookup_insert_ne. }
    apply elem_of_app in Hin as [Hin | ->%list_elem_of_singleton]; [| done].
    destruct (IH Hin) as (r' & Hr' & En & Hk). exists r'.
    split_and!; [| done..]. apply elem_of_app. by left.
Qed.



(** A non-empty [remotes] object is handed to the plugin as it is. *)
Lemma mf_remotes_host mfConfig k v :
  mfc_type mfConfig = Host -> remotes mfConfig !! k = Some v ->
  mf_remotes (moduleFederationConfig mfConfig) = Some (remotes mfConfig).
Proof.
  intros Ht Hk. simpl. rewrite Ht.
  assert (size (remotes mfConfig) ≠ 0) as Hsz.
  { apply map_size_ne_0_lookup. eauto. }
  destruct (size (remotes mfConfig)); done.
Qed.

(** An empty one is left out. *)
Lemma mf_remotes_empty mfConfig :
  remotes mfConfig = ∅ -> mf_remotes (moduleFederationConfig mfConfig) = None.
Proof. intros E. simpl. rewrite E. by destruct (mfc_type mfConfig). Qed.

End WebpackRemotes.

(** C7 (defect of the code): the template is to translate every entry of
    a host's [remotes] list into a reference [name@url] under the remote's
    name.  It does not for a remote named [__proto__], a name that the
    prompt and [isValidIdentifier] both accept: the assignment to that
    property of a plain object is ignored, so the record below, whose only
    remote has this name, yields an empty [remotes] object and the plugin
    is given no [remotes] at all. *)
Theorem webpack_proto_remote_dropped :
  let mfConfig :=
    generateHostConfig "shell" 3000 React
      [{| rr_name := "__proto__"; rr_url := "http://localhost:3001/remoteEntry.js" |}] in
  validateRemoteNameInput "__proto__" = Accepted
  /\ isValidIdentifier "__proto__" = true
  /\ mfc_remotes mfConfig
     = Some [{| re_name := "__proto__";
                re_url := "http://localhost:3001/remoteEntry.js";
                re_entry := Some "remoteEntry.js" |}]
  /\ remotes mfConfig !! "__proto__" = None
  /\ remotes mfConfig = ∅
  /\ mf_remotes (moduleFederationConfig mfConfig) = None.
Proof.
  intros mfConfig.
  assert (remotes mfConfig = ∅) as Hempty.
  { apply (assign_only_proto _ ∅). by repeat constructor. }
  split_and!; [done.. | by rewrite Hempty | done | by apply mf_remotes_empty].
Qed.




(** With a repeated name the later entry wins, as for any assignment to
    an object property. *)
Example webpack_remotes_repeated_name :
  remotes
    (generateHostConfig "shell" 3000 React
       [{| rr_name := "products"; rr_url := "U1" |};
        {| rr_name := "products"; rr_url := "U2" |}]) !! "products"
  = Some "products@U2".
Proof.
  apply (assign_last
           [{| re_name := "products"; re_url := "U1"; re_entry := Some "remoteEntry.js" |}]
           {| re_name := "products"; re_url := "U2"; re_entry := Some "remoteEntry.js" |}
           [] ∅).
  - discriminate.
  - apply not_elem_of_nil.
Qed.

(** A remote named [__proto__] is dropped; the others are kept. *)
Example webpack_remotes_proto_among_others :
  let mfConfig :=
    generateHostConfig "shell" 3000 React
      [{| rr_name := "products"; rr_url := "U1" |};
       {| rr_name := "__proto__"; rr_url := "U2" |}] in
  remotes mfConfig !! "products" = Some "products@U1"
  /\ remotes mfConfig !! "__proto__" = None.
Proof.
  split.
  - apply (assign_last []
             {| re_name := "products"; re_url := "U1"; re_entry := Some "remoteEntry.js" |}
             [{| re_name := "__proto__"; re_url := "U2"; re_entry := Some "remoteEntry.js" |}]
             ∅).
    + discriminate.
    + by intros [=]%list_elem_of_singleton.
  - by apply (assign_no_proto _ ∅).
Qed.

(** ** Raw name and federation identifier *)

Lemma sanitize_changes_hyphenated name :
  some_char (Ascii.eqb "-") name = true ->
  sanitizeModuleFederationName name <> name.
Proof.
  intros Hhyphen E. pose proof (sanitize_no_hyphen name) as Hno.
  rewrite E in Hno.
  destruct (all_some_chars _ _ _ Hno Hhyphen) as (c & Hc1 & Hc2).
  rewrite Ascii.eqb_sym in Hc2. rewrite Hc2 in Hc1. discriminate.
Qed.

(** C9: of the artefacts of one application, host or remote, only the
    [name] of [micro-frontend.config.json] is normalised; the directory is
    created under the raw name and [package.json] is named by the raw name.
    Hence for a raw name with a hyphen the federation identifier differs
    from the directory name and from the package name. *)
Theorem only_federation_name_normalised
    (path_join : string -> string -> string) (cwd : string)
    (config : ProjectConfig) (remotes : list RemoteReference) :
  let host := generateHostApp path_join cwd config remotes in
  let remote := generateRemoteApp path_join cwd config in
  (mfc_name (mfConfig host) = sanitizeModuleFederationName (pc_name config)
   /\ projectPath host = path_join cwd (pc_name config)
   /\ pkg_name (packageJson host) = pc_name config)
  /\ (mfc_name (remoteMfConfig remote) = sanitizeModuleFederationName (pc_name config)
      /\ remoteProjectPath remote = path_join cwd (pc_name config)
      /\ pkg_name (remotePackageJson remote) = pc_name config)
  /\ (some_char (Ascii.eqb "-") (pc_name config) = true ->
      mfc_name (mfConfig host) <> pc_name config
      /\ mfc_name (mfConfig host) <> pkg_name (packageJson host)
      /\ mfc_name (remoteMfConfig remote) <> pc_name config
      /\ mfc_name (remoteMfConfig remote) <> pkg_name (remotePackageJson remote)).
Proof.
  intros host remote. split_and!; [done.. |].
  intros Hne%sanitize_changes_hyphenated. by split_and!.
Qed.

Lemma only_federation_name_normalised_witness :
  let config :=
    {| pc_type := Host; pc_name := "host-app"; pc_port := 3000;
       pc_framework := React; pc_typescript := true; pc_isMonorepo := false;
       pc_monorepoTool := None; pc_packageManager := Pnpm |} in
  let host := generateHostApp (fun a b => a +:+ "/" +:+ b) "/work" config [] in
  let remote := generateRemoteApp (fun a b => a +:+ "/" +:+ b) "/work" config in
  some_char (Ascii.eqb "-") (pc_name config) = true
  /\ mfc_name (mfConfig host) <> pc_name config
  /\ mfc_name (mfConfig host) <> pkg_name (packageJson host)
  /\ mfc_name (remoteMfConfig remote) <> pc_name config
  /\ mfc_name (remoteMfConfig remote) <> pkg_name (remotePackageJson remote).
Proof.
  intros config host remote. split; [reflexivity |].
  apply (only_federation_name_normalised
           (fun a b => a +:+ "/" +:+ b) "/work" config []).
  reflexivity.
Defined.

Example host_app_names :
  let out :=
    generateHostApp (fun a b => a +:+ "/" +:+ b) "/work"
      {| pc_type := Host; pc_name := "host-app"; pc_port := 3000;
         pc_framework := React; pc_typescript := true; pc_isMonorepo := false;
         pc_monorepoTool := None; pc_packageManager := Pnpm |} [] in
  mfc_name (mfConfig out) = "hostApp"
  /\ projectPath out = "/work/host-app"
  /\ pkg_name (packageJson out) = "host-app".
Proof. repeat split. Qed.

(** ** Workspace task pipelines *)

Lemma workspace_files_fixed (path_join : string -> string -> string)
    (rootPath : string) (config : ProjectConfig) :
  Some (snd (generateNxWorkspace path_join rootPath config)) = workspaceFile Nx
  /\ Some (snd (generateTurborepoConfig path_join rootPath config))
     = workspaceFile Turborepo.
Proof. split; reflexivity. Qed.

Ltac no_such_dependency H :=
  vm_compute in H;
  repeat (apply elem_of_cons in H as [H | H]; [discriminate H |]);
  by apply elem_of_nil in H.

Lemma clean_has_no_dependents tool task :
  task ∈ taskNames tool -> ~ dependsOn tool task "clean".
Proof.
  destruct tool.
  - change (taskNames Nx) with ["build"; "dev"].
    intros Hin.
    repeat (apply elem_of_cons in Hin as [-> | Hin]);
      [.. | by apply elem_of_nil in Hin];
      intros [H | H]; no_such_dependency H.
  - change (taskNames Turborepo) with ["build"; "dev"; "clean"].
    intros Hin.
    repeat (apply elem_of_cons in Hin as [-> | Hin]);
      [.. | by apply elem_of_nil in Hin];
      intros [H | H]; no_such_dependency H.
  - change (taskNames PnpmWorkspaces) with (@nil string).
    by intros ?%elem_of_nil.
Qed.

(** C8, as stated, fails for Nx: nx.json gives [dev] no persistent marker. *)
Lemma nx_dev_not_marked_persistent : ~ pipelineAsSpecified Nx.
Proof. intros (_ & _ & _ & _ & H & _). vm_compute in H. discriminate H. Qed.

(** C8 (amended): turbo.json encodes the pipeline as specified, with
    outputs [dist/**].  nx.json makes [build] wait for upstream builds and
    lists it as a cacheable operation with outputs [{projectRoot}/dist];
    [dev] and [clean] are not cacheable operations; [dev] has no
    persistent marker and also waits for upstream builds; [clean] has no
    target entry, and no target depends on it. *)
Theorem workspace_pipelines :
  (pipelineAsSpecified Turborepo
   /\ json_strings (taskAttr Turborepo "build" "dependsOn") = ["^build"]
   /\ json_strings (taskAttr Turborepo "build" "outputs") = ["dist/**"]
   /\ taskAttr Turborepo "dev" "cache" = Some (JBool false)
   /\ taskAttr Turborepo "clean" "cache" = Some (JBool false))
  /\ (json_strings (taskAttr Nx "build" "dependsOn") = ["^build"]
      /\ cacheable Nx "build" = true
      /\ json_strings (taskAttr Nx "build" "outputs") = ["{projectRoot}/dist"]
      /\ cacheable Nx "dev" = false
      /\ taskAttr Nx "dev" "persistent" = None
      /\ json_strings (taskAttr Nx "dev" "dependsOn") = ["^build"]
      /\ cacheable Nx "clean" = false
      /\ taskEntry Nx "clean" = None
      /\ forall task, task ∈ taskNames Nx -> ~ dependsOn Nx task "clean").
Proof.
  split.
  - split_and!; try reflexivity.
    unfold pipelineAsSpecified. split_and!; try reflexivity.
    + vm_compute. apply list_elem_of_here.
    + vm_compute. discriminate.
    + apply clean_has_no_dependents.
  - split_and!; try reflexivity. apply clean_has_no_dependents.
Qed.

(** * Further properties of the code *)

(** ** Casing *)

Lemma toUpperCase_not_lower c : is_lower c = true -> is_lower (toUpperCase c) = false.
Proof. each_ascii c. Qed.

Lemma camelCase_upperAfter s : camelCase s = upperAfter is_separator s.
Proof.
  induction s as [| c | c d s IH1 IH2] using string_pair_ind; [done.. |].
  change (camelCase (String c (String d s)))
    with (if is_separator c && is_lower d
          then String (toUpperCase d) (camelCase s)
          else String c (camelCase (String d s))).
  change (upperAfter is_separator (String c (String d s)))
    with (if is_separator c && is_lower d
          then String (toUpperCase d) (upperAfter is_separator s)
          else String c (upperAfter is_separator (String d s))).
  by rewrite IH1, IH2.
Qed.

Lemma toCamelCase_upperAfter s : toCamelCase s = upperAfter is_hyphen s.
Proof.
  induction s as [| c | c d s IH1 IH2] using string_pair_ind; [done.. |].
  change (toCamelCase (String c (String d s)))
    with (if Ascii.eqb c "-" && is_lower d
          then String (toUpperCase d) (toCamelCase s)
          else String c (toCamelCase (String d s))).
  change (upperAfter is_hyphen (String c (String d s)))
    with (if is_hyphen c && is_lower d
          then String (toUpperCase d) (upperAfter is_hyphen s)
          else String c (upperAfter is_hyphen (String d s))).
  by rewrite IH1, IH2.
Qed.

Section UpperAfter.
Variable sep : ascii -> bool.
Hypothesis sep_not_letter : forall c, is_letter c = true -> sep c = false.

Lemma upperAfter_step c d s :
  upperAfter sep (String c (String d s))
  = if sep c && is_lower d
    then String (toUpperCase d) (upperAfter sep s)
    else String c (upperAfter sep (String d s)).
Proof. reflexivity. Qed.

Lemma settled_step c d s :
  settled sep (String c (String d s))
  = negb (sep c && is_lower d) && settled sep (String d s).
Proof. reflexivity. Qed.

Lemma settled_cons c s :
  (sep c = true -> headNotLower s = true) ->
  settled sep s = true -> settled sep (String c s) = true.
Proof.
  destruct s as [| d s]; [done |]. intros Hhead Hs.
  rewrite settled_step, Hs, andb_true_r.
  destruct (sep c); [| done]. simpl in Hhead |- *. by apply Hhead.
Qed.

(** One pass leaves nothing for a second pass to rewrite. *)
Lemma upperAfter_settled s :
  settled sep (upperAfter sep s) = true
  /\ (headNotLower s = true -> headNotLower (upperAfter sep s) = true).
Proof.
  induction s as [| c | c d s [IH1 _] [IH2 IH2h]] using string_pair_ind;
    [done.. |].
  rewrite upperAfter_step.
  destruct (sep c && is_lower d) eqn:Hm.
  - apply andb_true_iff in Hm as [_ Hd]. split.
    + apply settled_cons; [| done].
      rewrite sep_not_letter; [done |]. by apply toUpperCase_letter.
    + intros _. simpl. by rewrite toUpperCase_not_lower.
  - split; [| done].
    apply settled_cons; [| done].
    intros Hc. rewrite Hc in Hm. simpl in Hm.
    apply IH2h. simpl. by rewrite Hm.
Qed.

Lemma upperAfter_fixed s : settled sep s = true -> upperAfter sep s = s.
Proof.
  induction s as [| c s IH]; [done |].
  destruct s as [| d s]; [done |].
  rewrite settled_step, upperAfter_step.
  intros [Hm Hs]%andb_true_iff. apply negb_true_iff in Hm. rewrite Hm.
  by rewrite (IH Hs).
Qed.

Lemma upperAfter_idempotent s :
  upperAfter sep (upperAfter sep s) = upperAfter sep s.
Proof. apply upperAfter_fixed, upperAfter_settled. Qed.

Lemma upperAfter_length s : String.length (upperAfter sep s) <= String.length s.
Proof.
  induction s as [| c | c d s IH1 IH2] using string_pair_ind; [done.. |].
  rewrite upperAfter_step. destruct (sep c && is_lower d); simpl in *; lia.
Qed.
End UpperAfter.

Lemma separator_not_letter c : is_letter c = true -> is_separator c = false.
Proof. each_ascii c. Qed.

Lemma hyphen_not_letter c : is_letter c = true -> is_hyphen c = false.
Proof. each_ascii c. Qed.

(** X1: [toCamelCase] is idempotent: converting an already converted
    string changes nothing. *)
Theorem toCamelCase_idempotent str :
  toCamelCase (toCamelCase str) = toCamelCase str.
Proof.
  rewrite !toCamelCase_upperAfter.
  apply upperAfter_idempotent, hyphen_not_letter.
Qed.

(** X2: on a name without underscores the first stage of the sanitiser is
    [toCamelCase]; the sanitiser then is [toCamelCase] followed by the
    removal of the remaining symbols and the digit prefix. *)
Theorem sanitize_via_toCamelCase name :
  some_char (fun c => Ascii.eqb c "_") name = false ->
  sanitizeModuleFederationName name
  = prefixLeadingDigit (stripNonAlnum (toCamelCase name)).
Proof.
  intros Hno. unfold sanitizeModuleFederationName. do 2 f_equal.
  induction name as [| c | c d s IH1 IH2] using string_pair_ind; [done.. |].
  rewrite camelCase_upperAfter, toCamelCase_upperAfter, !upperAfter_step.
  rewrite <- !camelCase_upperAfter, <- !toCamelCase_upperAfter.
  change (some_char (fun c => Ascii.eqb c "_") (String c (String d s)))
    with (Ascii.eqb c "_"
          || some_char (fun c => Ascii.eqb c "_") (String d s)) in Hno.
  apply orb_false_iff in Hno as [Hc Hrest].
  assert (is_separator c = is_hyphen c) as ->.
  { unfold is_separator, is_hyphen. rewrite Hc. apply orb_false_r. }
  rewrite (IH2 Hrest).
  simpl in Hrest. apply orb_false_iff in Hrest as [_ Hs]. by rewrite (IH1 Hs).
Qed.

Lemma sanitize_via_toCamelCase_witness :
  some_char (fun c => Ascii.eqb c "_") "my-remote-app" = false
  /\ sanitizeModuleFederationName "my-remote-app"
     = prefixLeadingDigit (stripNonAlnum (toCamelCase "my-remote-app")).
Proof.
  split; [reflexivity |].
  apply (sanitize_via_toCamelCase "my-remote-app"). reflexivity.
Defined.

(** ** Which names normalise to an identifier *)

Lemma toUpperCase_alnum c : is_lower c = true -> is_alnum (toUpperCase c) = true.
Proof. intros H. by apply letter_alnum, toUpperCase_letter. Qed.

Lemma lower_alnum c : is_lower c = true -> is_alnum c = true.
Proof. each_ascii c. Qed.

Lemma camelCase_some_alnum s :
  some_char is_alnum (camelCase s) = some_char is_alnum s.
Proof.
  induction s as [| c | c d s IH1 IH2] using string_pair_ind; [done.. |].
  change (camelCase (String c (String d s)))
    with (if is_separator c && is_lower d
          then String (toUpperCase d) (camelCase s)
          else String c (camelCase (String d s))).
  destruct (is_separator c && is_lower d) eqn:Hm.
  - apply andb_true_iff in Hm as [_ Hd]. simpl.
    rewrite (toUpperCase_alnum _ Hd), (lower_alnum _ Hd). simpl.
    by rewrite orb_true_r.
  - change (some_char is_alnum (String c (camelCase (String d s))))
      with (is_alnum c || some_char is_alnum (camelCase (String d s))).
    by rewrite IH2.
Qed.

Lemma stripNonAlnum_empty s :
  stripNonAlnum s = EmptyString <-> some_char is_alnum s = false.
Proof.
  induction s as [| c s IH]; simpl; [done |].
  destruct (is_alnum c); simpl; [split; discriminate | exact IH].
Qed.

Lemma prefixLeadingDigit_valid y :
  all_chars is_alnum y = true -> y <> EmptyString ->
  isValidIdentifier (prefixLeadingDigit y) = true.
Proof.
  destruct y as [| c r]; [done |]. intros Hy _.
  simpl in Hy. apply andb_true_iff in Hy as [Hc Hr].
  assert (all_chars is_ident_part r = true) as Hr'.
  { revert Hr. apply all_chars_impl, alnum_ident_part. }
  unfold prefixLeadingDigit.
  destruct (alnum_cases _ Hc) as [Hd | [Hd Hl]]; rewrite Hd; simpl.
  - by rewrite (alnum_ident_part _ Hc), Hr'.
  - by rewrite (letter_ident_start _ Hl), Hr'.
Qed.

Lemma sanitize_valid_alnum name :
  isValidIdentifier (sanitizeModuleFederationName name)
  = some_char is_alnum name
  /\ (some_char is_alnum name = false
      <-> sanitizeModuleFederationName name = EmptyString).
Proof.
  unfold sanitizeModuleFederationName.
  pose proof (stripNonAlnum_alnum (camelCase name)) as Hy.
  pose proof (stripNonAlnum_empty (camelCase name)) as He.
  rewrite camelCase_some_alnum in He.
  destruct (some_char is_alnum name) eqn:Hs.
  - split.
    + apply prefixLeadingDigit_valid; [done |]. intros E. by apply He in E.
    + split; [done |]. intros E.
      destruct (stripNonAlnum (camelCase name)) as [| c r] eqn:Ey.
      * by apply He.
      * simpl in E. by destruct (is_digit c).
  - destruct He as [_ He]. rewrite (He eq_refl). by split.
Qed.

(** X3: the sanitised name is a valid identifier exactly when the raw name
    has a letter or a digit; otherwise it is the empty string. *)
Theorem sanitize_valid_iff_alnum name :
  isValidIdentifier (sanitizeModuleFederationName name)
  = some_char is_alnum name
  /\ (some_char is_alnum name = false
      <-> sanitizeModuleFederationName name = EmptyString).
Proof.
  destruct (sanitize_valid_alnum name) as [Hvalid Hempty].
  split; [exact Hvalid | exact Hempty].
Qed.

Lemma project_char_cases c :
  is_project_char c = true ->
  is_alnum c = true \/ Ascii.eqb c "-" = true \/ Ascii.eqb c "_" = true.
Proof. each_ascii c. Qed.

(** X4: a name that [validateProjectName] accepts also passes the prompt's
    check and normalises to a non-empty valid identifier. *)
Theorem validateProjectName_sound name :
  nv_valid (validateProjectName name) = true ->
  validateProjectNameInput name = Accepted
  /\ sanitizeModuleFederationName name <> EmptyString
  /\ isValidIdentifier (sanitizeModuleFederationName name) = true.
Proof.
  unfold validateProjectName, validateProjectNameInput.
  destruct name as [| c r]; [done |].
  destruct (matchesProjectName (String c r)) eqn:Hm; [| done]. simpl negb. cbv iota.
  destruct (startsWith "-" (String c r) || startsWith "_" (String c r)) eqn:Hs;
    [done |].
  intros _. split; [done |].
  assert (some_char is_alnum (String c r) = true) as Halnum.
  { simpl in Hm, Hs |- *. apply andb_true_iff in Hm as [Hc _].
    apply orb_false_iff in Hs as [H1 H2].
    destruct (project_char_cases _ Hc) as [-> | [H | H]]; [done | congruence..]. }
  destruct (sanitize_valid_alnum (String c r)) as [Hv He].
  split; [| by rewrite Hv].
  intros E. apply He in E. congruence.
Qed.

Lemma validateProjectName_sound_witness :
  nv_valid (validateProjectName "my-remote-app") = true
  /\ validateProjectNameInput "my-remote-app" = Accepted
  /\ sanitizeModuleFederationName "my-remote-app" <> EmptyString
  /\ isValidIdentifier (sanitizeModuleFederationName "my-remote-app") = true.
Proof.
  split; [reflexivity |].
  apply (validateProjectName_sound "my-remote-app"). reflexivity.
Defined.

Lemma separator_cases c :
  is_separator c = true -> is_project_char c = true /\ is_alnum c = false.
Proof. each_ascii c. Qed.

(** X5: a non-empty name made only of hyphens and underscores passes the
    prompt's check, yet it normalises to the empty string, which is no
    identifier; [validateProjectName] rejects such a name. *)
Theorem prompt_accepts_separator_names name :
  name <> EmptyString -> all_chars is_separator name = true ->
  validateProjectNameInput name = Accepted
  /\ sanitizeModuleFederationName name = EmptyString
  /\ isValidIdentifier (sanitizeModuleFederationName name) = false
  /\ nv_valid (validateProjectName name) = false.
Proof.
  intros Hne Hsep.
  assert (all_chars is_project_char name = true) as Hproj.
  { revert Hsep. apply all_chars_impl. intros c Hc. by apply separator_cases. }
  assert (some_char is_alnum name = false) as Hno.
  { clear Hne Hproj. induction name as [| c r IH]; [done |].
    simpl in Hsep |- *. apply andb_true_iff in Hsep as [Hc Hr].
    destruct (separator_cases _ Hc) as [_ ->]. by apply IH. }
  destruct (sanitize_valid_alnum name) as [Hv He].
  split_and!.
  - unfold validateProjectNameInput, matchesProjectName.
    destruct name; [done |]. by rewrite Hproj.
  - by apply He.
  - by rewrite Hv.
  - unfold validateProjectName, matchesProjectName.
    destruct name as [| c r]; [done |]. rewrite Hproj. simpl negb. cbv iota.
    simpl in Hsep. apply andb_true_iff in Hsep as [Hc _].
    unfold is_separator in Hc. unfold startsWith. by rewrite Hc.
Qed.

Lemma prompt_accepts_separator_names_witness :
  validateProjectNameInput "-_-" = Accepted
  /\ sanitizeModuleFederationName "-_-" = EmptyString
  /\ isValidIdentifier (sanitizeModuleFederationName "-_-") = false
  /\ nv_valid (validateProjectName "-_-") = false.
Proof.
  apply (prompt_accepts_separator_names "-_-"); [discriminate | reflexivity].
Defined.

Lemma remote_char_ident_part c : is_remote_char c = true -> is_ident_part c = true.
Proof. each_ascii c. Qed.

Lemma remote_char_start c :
  is_remote_char c = true -> is_ident_start c = negb (is_digit c).
Proof. each_ascii c. Qed.

Lemma remote_char_not_hyphen c : is_remote_char c = true -> Ascii.eqb c "-" = false.
Proof. each_ascii c. Qed.

(** X6: a remote name that the prompt accepts has no hyphen, and it is a
    valid identifier exactly when it does not start with a digit. *)
Theorem validateRemoteNameInput_identifier input :
  validateRemoteNameInput input = Accepted ->
  isValidIdentifier input
  = match input with
    | String c _ => negb (is_digit c)
    | EmptyString => false
    end
  /\ some_char (fun c => Ascii.eqb c "-") input = false.
Proof.
  unfold validateRemoteNameInput. destruct input as [| c r]; [done |].
  destruct (all_chars is_remote_char (String c r)) eqn:Hall; [| done].
  intros _. split.
  - simpl in Hall |- *. apply andb_true_iff in Hall as [Hc Hr].
    rewrite (remote_char_start _ Hc).
    assert (all_chars is_ident_part r = true) as ->.
    { revert Hr. apply all_chars_impl, remote_char_ident_part. }
    apply andb_true_r.
  - clear -Hall. induction (String c r) as [| d s IH]; [done |].
    simpl in Hall |- *. apply andb_true_iff in Hall as [Hd Hs].
    by rewrite (remote_char_not_hyphen _ Hd), (IH Hs).
Qed.

Lemma validateRemoteNameInput_identifier_witness :
  validateRemoteNameInput "user_service" = Accepted
  /\ isValidIdentifier "user_service" = true
  /\ some_char (fun c => Ascii.eqb c "-") "user_service" = false.
Proof.
  split; [reflexivity |].
  apply (validateRemoteNameInput_identifier "user_service"). reflexivity.
Defined.

Lemma stripNonAlnum_length s : String.length (stripNonAlnum s) <= String.length s.
Proof.
  induction s as [| c s IH]; simpl; [done |].
  destruct (is_alnum c); simpl; lia.
Qed.

(** X7: sanitising never lengthens a name by more than the one prefixed
    underscore. *)
Theorem sanitize_length name :
  String.length (sanitizeModuleFederationName name) <= String.length name + 1.
Proof.
  unfold sanitizeModuleFederationName.
  pose proof (stripNonAlnum_length (camelCase name)) as H1.
  pose proof (upperAfter_length is_separator name) as H2.
  rewrite <- camelCase_upperAfter in H2.
  destruct (stripNonAlnum (camelCase name)) as [| c r]; simpl in *; [lia |].
  destruct (is_digit c); simpl; lia.
Qed.

(** ** Federation options: the two ways to derive them *)



(** X9: what the template hands to the plugin for a generated record.
    A host record yields the sanitised name, no [exposes], and a [remotes]
    object exactly when some remote of the list has a name other than
    [__proto__] (so none for an empty list); a remote record yields the
    sanitised name, its [exposes] and no [remotes].  Both carry the shared
    policy of the framework. *)
Theorem template_of_generated name port framework
    (rs : list RemoteReference) (exposes : option (gmap string string)) :
  let host := moduleFederationConfig (generateHostConfig name port framework rs) in
  let remote :=
    moduleFederationConfig (generateRemoteConfig name port framework exposes) in
  (mf_name host = sanitizeModuleFederationName name
   /\ mf_exposes host = None
   /\ mf_remotes host
      = (if decide (Forall (fun r => rr_name r = "__proto__") rs)
         then None
         else Some (remotes (generateHostConfig name port framework rs)))
   /\ mf_shared host = generateSharedConfig framework)
  /\ (mf_name remote = sanitizeModuleFederationName name
      /\ mf_exposes remote = Some (default defaultExposes exposes)
      /\ mf_remotes remote = None
      /\ mf_shared remote = generateSharedConfig framework).
Proof.
  intros host remote. split; split_and!; try done.
  case_decide as Hall.
  - apply mf_remotes_empty. unfold remotes. simpl.
    apply assign_only_proto. by apply Forall_fmap.
  - apply not_Forall_Exists in Hall; [| apply _].
    apply Exists_exists in Hall as (r & Hr & Hname). simpl in Hname.
    destruct (assign_present (toRemoteEntry <$> rs) ∅ (toRemoteEntry r))
      as (r' & _ & _ & Hk); [by apply list_elem_of_fmap_2 | done |].
    eapply mf_remotes_host; [done |]. exact Hk.
Qed.

(** ** Dev-server and output settings of the template *)

(** X10: the [build] and [devServer] sections that the generators write
    are exactly the template's defaults: the template derives the same
    settings from a generated record as from that record without the two
    sections, namely directory [dist], public path [auto], hot reload,
    history fallback and the CORS header. *)
Theorem generated_sections_are_defaults name port framework
    (rs : list RemoteReference) (exposes : option (gmap string string)) mfConfig :
  mfConfig = generateHostConfig name port framework rs
  \/ mfConfig = generateRemoteConfig name port framework exposes ->
  devServer mfConfig = devServer (withoutSections mfConfig)
  /\ output mfConfig = output (withoutSections mfConfig)
  /\ devServer mfConfig
     = {| ds_directory := "dist"; ds_port := port;
          ds_historyApiFallback := true; ds_hot := true;
          ds_headers := <["Access-Control-Allow-Origin" := "*"]> ∅ |}
  /\ output mfConfig
     = {| out_path := "dist"; out_publicPath := "auto"; out_clean := true |}.
Proof. intros [-> | ->]; by split_and!. Qed.

Lemma generated_sections_are_defaults_witness :
  devServer (generateHostConfig "shell" 3000 React [])
  = devServer (withoutSections (generateHostConfig "shell" 3000 React [])).
Proof.
  apply (generated_sections_are_defaults "shell" 3000 React [] None). by left.
Defined.




(** ** The package manifest against the other artefacts *)

(** X12: the runtime dependencies of [package.json] are exactly the
    packages of the shared policy, and each is declared with the major
    version that the policy requires. *)
Theorem dependencies_match_shared_policy (config : ProjectConfig) k :
  majorOf <$> getDependencies config !! k
  = (fun d => majorOf (default EmptyString (requiredVersion d)))
      <$> generateSharedConfig (pc_framework config) !! k.
Proof.
  unfold getDependencies, generateSharedConfig.
  destruct (pc_framework config).
  - destruct (decide (k = "react")) as [-> | H1]; [done |].
    destruct (decide (k = "react-dom")) as [-> | H2]; [done |].
    by rewrite !lookup_insert_ne, !lookup_empty.
  - destruct (decide (k = "vue")) as [-> | H1]; [done |].
    by rewrite !lookup_insert_ne, !lookup_empty.
Qed.

(** X13: every package that the webpack template loads is a development
    dependency of the manifest, except that [@babel/preset-typescript],
    which the template always lists among the presets, is declared only for
    a TypeScript project. *)
Theorem template_packages_declared (config : ProjectConfig) :
  (forall p, p ∈ requiredPackages ++ loaders ++ presets ->
     p <> "@babel/preset-typescript" ->
     is_Some (getDevDependencies config !! p))
  /\ "@babel/preset-typescript" ∈ presets
  /\ (is_Some (getDevDependencies config !! "@babel/preset-typescript")
      <-> pc_typescript config = true).
Proof.
  split_and!.
  - intros p Hp Hne. unfold requiredPackages, loaders, presets in Hp. simpl in Hp.
    unfold getDevDependencies.
    repeat (apply elem_of_cons in Hp as [-> | Hp]);
      [.. | by apply elem_of_nil in Hp];
      try done;
      destruct (pc_typescript config), (pc_framework config);
      vm_compute; eauto.
  - unfold presets. do 2 apply list_elem_of_further. apply list_elem_of_here.
  - unfold getDevDependencies.
    destruct (pc_typescript config), (pc_framework config); vm_compute;
      split; try done; eauto; by intros [? ?].
Qed.

Lemma template_packages_declared_witness :
  is_Some
    (getDevDependencies
       {| pc_type := Host; pc_name := "shell"; pc_port := 3000;
          pc_framework := Vue; pc_typescript := false; pc_isMonorepo := false;
          pc_monorepoTool := None; pc_packageManager := Yarn |} !! "babel-loader").
Proof.
  destruct (template_packages_declared
              {| pc_type := Host; pc_name := "shell"; pc_port := 3000;
                 pc_framework := Vue; pc_typescript := false; pc_isMonorepo := false;
                 pc_monorepoTool := None; pc_packageManager := Yarn |}) as [H _].
  apply (H "babel-loader").
  - do 2 apply list_elem_of_further. apply list_elem_of_here.
  - discriminate.
Defined.

(** X14: every task of the workspace pipeline, for Nx as for Turborepo, is
    a script of each generated application's [package.json]. *)
Theorem pipeline_tasks_are_scripts (tool : MonorepoTool) task
    (config : ProjectConfig) (type : AppType) :
  task ∈ taskNames tool ->
  is_Some (pkg_scripts (generatePackageJson config type) !! task).
Proof.
  intros Hin. simpl.
  destruct tool.
  - change (taskNames Nx) with ["build"; "dev"] in Hin.
    repeat (apply elem_of_cons in Hin as [-> | Hin]);
      [.. | by apply elem_of_nil in Hin]; vm_compute; eauto.
  - change (taskNames Turborepo) with ["build"; "dev"; "clean"] in Hin.
    repeat (apply elem_of_cons in Hin as [-> | Hin]);
      [.. | by apply elem_of_nil in Hin]; vm_compute; eauto.
  - by apply elem_of_nil in Hin.
Qed.

Lemma pipeline_tasks_are_scripts_witness :
  is_Some
    (pkg_scripts
       (generatePackageJson
          {| pc_type := Remote; pc_name := "products"; pc_port := 3001;
             pc_framework := Vue; pc_typescript := false; pc_isMonorepo := true;
             pc_monorepoTool := Some Turborepo; pc_packageManager := Npm |}
          Remote) !! "clean").
Proof.
  apply (pipeline_tasks_are_scripts Turborepo "clean").
  do 2 apply list_elem_of_further. apply list_elem_of_here.
Defined.

(** ** The generators as programs: working directory and written files *)

Section ScaffoldInvariants.
Variable path_join : list string -> string.
Variable fs_ok : string -> bool.

Import Scaffold (steady).

Lemma steady_ret {A} (a : A) : steady (mret a : Scaffold.IO A).
Proof. intros w. by split. Qed.

Lemma steady_skip : steady Scaffold.skip.
Proof. apply steady_ret. Qed.

Lemma steady_processCwd : steady Scaffold.processCwd.
Proof. intros w. by split. Qed.

Lemma steady_touch target : steady (Scaffold.touch fs_ok target).
Proof.
  intros w. unfold Scaffold.touch. destruct (fs_ok target); simpl.
  - split; [done |]. by apply prefix_app_r.
  - by split.
Qed.

Lemma steady_bind {A B} (m : Scaffold.IO A) (f : A -> Scaffold.IO B) :
  steady m -> (forall a, steady (f a)) -> steady (m ≫= f).
Proof.
  intros Hm Hf w. unfold mbind, Scaffold.IO_bind.
  destruct (Hm w) as [Hc Hp]. destruct (m w) as [[a | e] w1]; simpl in *.
  - destruct (Hf a w1) as [Hc' Hp']. split; [congruence |]. by etrans.
  - by split.
Qed.

(** [chdir] inside [try ... finally chdir(originalCwd)]. *)
Lemma steady_in_directory {A} directory (body : Scaffold.IO A) :
  steady body ->
  steady (originalCwd ← Scaffold.processCwd;
          Scaffold.chdir directory;;
          Scaffold.tryFinally body (Scaffold.chdir originalCwd)).
Proof.
  intros Hbody w.
  unfold mbind, Scaffold.IO_bind, Scaffold.processCwd, Scaffold.chdir,
    Scaffold.tryFinally. simpl.
  destruct (Hbody {| Scaffold.cwd := directory;
                     Scaffold.touched := Scaffold.touched w |}) as [_ Hp].
  destruct (body _) as [r w1]. simpl in *. by split.
Qed.

Ltac steady :=
  repeat first
    [ apply steady_touch | apply steady_skip | apply steady_processCwd
    | apply steady_ret | apply steady_in_directory
    | apply steady_bind; [| intros ?]
    | match goal with
      | |- steady (if ?b then _ else _) => destruct b
      | |- steady (match ?x with _ => _ end) => destruct x
      end ].

Lemma steady_generateHostApp config remotes :
  steady (Scaffold.generateHostApp path_join fs_ok config remotes).
Proof.
  unfold Scaffold.generateHostApp, Scaffold.generateHostSourceFiles. steady.
Qed.

Lemma steady_generateRemoteApp config :
  steady (Scaffold.generateRemoteApp path_join fs_ok config).
Proof.
  unfold Scaffold.generateRemoteApp, Scaffold.generateRemoteSourceFiles. steady.
Qed.

Lemma steady_setupMonorepo config remotes :
  steady (Scaffold.setupMonorepo path_join fs_ok config remotes).
Proof.
  unfold Scaffold.setupMonorepo, Scaffold.generateHostInMonorepo,
    Scaffold.generateRemoteInMonorepo, Scaffold.generateSharedTypesPackage.
  steady;
    first [ apply steady_generateHostApp | apply steady_generateRemoteApp ].
Qed.
End ScaffoldInvariants.

(** X15: [setupMonorepo] hands the process back in the working directory
    in which it was called, whether generation completes or a file-system
    call fails on the way; so do [generateHostApp] and [generateRemoteApp]. *)
Theorem generators_restore_cwd (path_join : list string -> string)
    (fs_ok : string -> bool) config remotes w :
  Scaffold.cwd (Scaffold.setupMonorepo path_join fs_ok config remotes w).2
    = Scaffold.cwd w
  /\ Scaffold.cwd (Scaffold.generateHostApp path_join fs_ok config remotes w).2
     = Scaffold.cwd w
  /\ Scaffold.cwd (Scaffold.generateRemoteApp path_join fs_ok config w).2
     = Scaffold.cwd w.
Proof.
  split_and!.
  - apply steady_setupMonorepo.
  - apply steady_generateHostApp.
  - apply steady_generateRemoteApp.
Qed.

(** X16: nothing is rolled back.  Every path touched before a generator
    runs is still there afterwards, followed by the paths it touched itself,
    also when it fails half-way. *)
Theorem generators_keep_files (path_join : list string -> string)
    (fs_ok : string -> bool) config remotes w :
  Scaffold.touched w
    `prefix_of`
    Scaffold.touched (Scaffold.setupMonorepo path_join fs_ok config remotes w).2
  /\ Scaffold.touched w
       `prefix_of`
       Scaffold.touched (Scaffold.generateHostApp path_join fs_ok config remotes w).2
  /\ Scaffold.touched w
       `prefix_of`
       Scaffold.touched (Scaffold.generateRemoteApp path_join fs_ok config w).2.
Proof.
  split_and!.
  - apply steady_setupMonorepo.
  - apply steady_generateHostApp.
  - apply steady_generateRemoteApp.
Qed.

Section ScaffoldSuccess.
Variable path_join : list string -> string.
Variable fs_ok : string -> bool.
Hypothesis all_ok : forall target, fs_ok target = true.

#[local] Arguments Scaffold.generateHostApp : simpl never.
#[local] Arguments Scaffold.generateRemoteApp : simpl never.

(** Runs a generator symbolically when no file-system call fails. *)
Ltac run :=
  unfold mbind, Scaffold.IO_bind, Scaffold.touch, Scaffold.skip, mret,
    Scaffold.IO_ret, Scaffold.processCwd, Scaffold.chdir, Scaffold.tryFinally;
  simpl; repeat (rewrite all_ok; simpl).

Ltac listed :=
  intros; simpl;
  repeat first [ apply list_elem_of_here | apply list_elem_of_further ].

Ltac collected :=
  f_equal; f_equal; rewrite <- ?(assoc_L (++)); reflexivity.

Lemma generateHostApp_succeeds config remotes w :
  let project := path_join [Scaffold.cwd w; pc_name config] in
  exists files,
    Scaffold.generateHostApp path_join fs_ok config remotes w
    = (Returns tt,
       {| Scaffold.cwd := Scaffold.cwd w;
          Scaffold.touched := Scaffold.touched w ++ files |})
    /\ path_join [project; "micro-frontend.config.json"] ∈ files
    /\ path_join [project; "webpack.config.js"] ∈ files
    /\ path_join [project; "package.json"] ∈ files
    /\ path_join [project; "src";
                  if pc_typescript config then "index.ts" else "index.js"] ∈ files
    /\ path_join [project; "src";
                  if pc_typescript config then "bootstrap.tsx" else "bootstrap.jsx"]
       ∈ files
    /\ (pc_typescript config = true ->
        path_join [project; "tsconfig.json"] ∈ files
        /\ (remotes <> [] -> path_join [project; "src"; "remotes.d.ts"] ∈ files)).
Proof.
  destruct config as [ty name port fw ts mono tool pm].
  unfold Scaffold.generateHostApp, Scaffold.generateHostSourceFiles, Scaffold.ext.
  destruct ts, fw, remotes as [| r rs]; run;
    (eexists; split; [collected |]); split_and!;
    try (intros Hts; first [discriminate Hts | split]);
    try (intros Hne; first [by destruct Hne | idtac]);
    listed.
Qed.

Lemma generateRemoteApp_succeeds config w :
  let project := path_join [Scaffold.cwd w; pc_name config] in
  exists files,
    Scaffold.generateRemoteApp path_join fs_ok config w
    = (Returns tt,
       {| Scaffold.cwd := Scaffold.cwd w;
          Scaffold.touched := Scaffold.touched w ++ files |})
    /\ path_join [project; "micro-frontend.config.json"] ∈ files
    /\ path_join [project; "webpack.config.js"] ∈ files
    /\ path_join [project; "package.json"] ∈ files
    /\ path_join [project; "src";
                  if pc_typescript config then "index.ts" else "index.js"] ∈ files
    /\ path_join [project; "src";
                  if pc_typescript config then "bootstrap.tsx" else "bootstrap.jsx"]
       ∈ files
    /\ (pc_typescript config = true ->
        path_join [project; "tsconfig.json"] ∈ files).
Proof.
  destruct config as [ty name port fw ts mono tool pm].
  unfold Scaffold.generateRemoteApp, Scaffold.generateRemoteSourceFiles, Scaffold.ext.
  destruct ts; run;
    (eexists; split; [collected |]); split_and!;
    try (intros Hts; first [discriminate Hts | idtac]);
    listed.
Qed.
Ltac found :=
  solve [ assumption
        | apply list_elem_of_here
        | apply list_elem_of_further; found
        | apply elem_of_app; right; found
        | apply elem_of_app; left; found ].

Ltac run_app :=
  match goal with
  | |- context [Scaffold.generateHostApp _ _ ?c ?r ?W] =>
      destruct (generateHostApp_succeeds c r W) as (files & -> & ? & ? & ? & _)
  | |- context [Scaffold.generateRemoteApp _ _ ?c ?W] =>
      destruct (generateRemoteApp_succeeds c W) as (files & -> & ? & ? & ? & _)
  end.

Lemma setupMonorepo_run config remotes w :
  let root := path_join [Scaffold.cwd w; pc_name config] in
  let app := path_join [path_join [root; "packages"]; pc_name config] in
  exists w',
    Scaffold.setupMonorepo path_join fs_ok config remotes w = (Returns tt, w')
    /\ path_join [root; "package.json"] ∈ Scaffold.touched w'
    /\ path_join [app; "micro-frontend.config.json"] ∈ Scaffold.touched w'
    /\ path_join [app; "webpack.config.js"] ∈ Scaffold.touched w'
    /\ path_join [app; "package.json"] ∈ Scaffold.touched w'
    /\ (pc_typescript config = true ->
        path_join [path_join [root; "packages"; "shared-types"]; "package.json"]
          ∈ Scaffold.touched w')
    /\ (forall tool, pc_monorepoTool config = Some tool ->
        path_join [root;
                   match tool with
                   | Nx => "nx.json"
                   | Turborepo => "turbo.json"
                   | PnpmWorkspaces => "pnpm-workspace.yaml"
                   end] ∈ Scaffold.touched w').
Proof.
  destruct config as [ty name port fw ts mono tool pm].
  unfold Scaffold.setupMonorepo, Scaffold.generateHostInMonorepo,
    Scaffold.generateRemoteInMonorepo, Scaffold.generateSharedTypesPackage.
  destruct ty, ts, tool as [[] |]; run; run_app; run;
    (eexists; split; [reflexivity |]); simpl in *;
    split_and!;
    try (intros t [= <-]);
    try (intros Hts; discriminate Hts);
    intros; found.
Qed.
End ScaffoldSuccess.

(** X17: when no file-system call fails, [setupMonorepo] completes.  The
    application lands in [<cwd>/<name>/packages/<name>], next to the root
    manifest; the workspace file of the selected tool is written; and for a
    TypeScript project the [shared-types] package is written, whatever the
    tool. *)
Theorem setupMonorepo_succeeds (path_join : list string -> string)
    (fs_ok : string -> bool) config remotes w :
  (forall target, fs_ok target = true) ->
  let root := path_join [Scaffold.cwd w; pc_name config] in
  let app := path_join [path_join [root; "packages"]; pc_name config] in
  exists w',
    Scaffold.setupMonorepo path_join fs_ok config remotes w = (Returns tt, w')
    /\ path_join [root; "package.json"] ∈ Scaffold.touched w'
    /\ path_join [app; "micro-frontend.config.json"] ∈ Scaffold.touched w'
    /\ path_join [app; "webpack.config.js"] ∈ Scaffold.touched w'
    /\ path_join [app; "package.json"] ∈ Scaffold.touched w'
    /\ (pc_typescript config = true ->
        path_join [path_join [root; "packages"; "shared-types"]; "package.json"]
          ∈ Scaffold.touched w')
    /\ (forall tool, pc_monorepoTool config = Some tool ->
        path_join [root;
                   match tool with
                   | Nx => "nx.json"
                   | Turborepo => "turbo.json"
                   | PnpmWorkspaces => "pnpm-workspace.yaml"
                   end] ∈ Scaffold.touched w').
Proof. intros Hok. by apply setupMonorepo_run. Qed.

Lemma setupMonorepo_succeeds_witness :
  exists w',
    Scaffold.setupMonorepo (String.concat "/") (fun _ => true)
      {| pc_type := Host; pc_name := "shop"; pc_port := 3000;
         pc_framework := React; pc_typescript := true; pc_isMonorepo := true;
         pc_monorepoTool := Some Turborepo; pc_packageManager := Pnpm |}
      [] {| Scaffold.cwd := "/work"; Scaffold.touched := [] |}
    = (Returns tt, w')
    /\ "/work/shop/packages/shop/micro-frontend.config.json" ∈ Scaffold.touched w'.
Proof.
  destruct (setupMonorepo_succeeds (String.concat "/") (fun _ => true)
              {| pc_type := Host; pc_name := "shop"; pc_port := 3000;
                 pc_framework := React; pc_typescript := true; pc_isMonorepo := true;
                 pc_monorepoTool := Some Turborepo; pc_packageManager := Pnpm |}
              [] {| Scaffold.cwd := "/work"; Scaffold.touched := [] |}
              (fun _ => eq_refl))
    as (w' & E & _ & H & _).
  exists w'. split; [exact E | exact H].
Defined.

(** X18: when no file-system call fails, [generateHostApp] and
    [generateRemoteApp] complete and write, under [<cwd>/<name>], the
    configuration file, the webpack configuration, the manifest, and the
    two-file start-up sequence: an entry [index] file beside a [bootstrap]
    file; a TypeScript project also gets [tsconfig.json], and a TypeScript
    host with remotes gets [remotes.d.ts]. *)
Theorem standalone_generators_succeed (path_join : list string -> string)
    (fs_ok : string -> bool) config remotes w :
  (forall target, fs_ok target = true) ->
  let project := path_join [Scaffold.cwd w; pc_name config] in
  let common files :=
    path_join [project; "micro-frontend.config.json"] ∈ files
    /\ path_join [project; "webpack.config.js"] ∈ files
    /\ path_join [project; "package.json"] ∈ files
    /\ path_join [project; "src";
                  if pc_typescript config then "index.ts" else "index.js"] ∈ files
    /\ path_join [project; "src";
                  if pc_typescript config then "bootstrap.tsx" else "bootstrap.jsx"]
       ∈ files in
  (exists files,
     Scaffold.generateHostApp path_join fs_ok config remotes w
     = (Returns tt,
        {| Scaffold.cwd := Scaffold.cwd w;
           Scaffold.touched := Scaffold.touched w ++ files |})
     /\ common files
     /\ (pc_typescript config = true ->
         path_join [project; "tsconfig.json"] ∈ files
         /\ (remotes <> [] -> path_join [project; "src"; "remotes.d.ts"] ∈ files)))
  /\ (exists files,
        Scaffold.generateRemoteApp path_join fs_ok config w
        = (Returns tt,
           {| Scaffold.cwd := Scaffold.cwd w;
              Scaffold.touched := Scaffold.touched w ++ files |})
        /\ common files
        /\ (pc_typescript config = true ->
            path_join [project; "tsconfig.json"] ∈ files)).
Proof.
  intros Hok project common. split.
  - destruct (generateHostApp_succeeds path_join fs_ok Hok config remotes w)
      as (files & E & H1 & H2 & H3 & H4 & H5 & H6).
    exists files. by split_and!.
  - destruct (generateRemoteApp_succeeds path_join fs_ok Hok config w)
      as (files & E & H1 & H2 & H3 & H4 & H5 & H6).
    exists files. by split_and!.
Qed.

Lemma standalone_generators_succeed_witness :
  exists files,
    Scaffold.generateRemoteApp (String.concat "/") (fun _ => true)
      {| pc_type := Remote; pc_name := "products"; pc_port := 3001;
         pc_framework := Vue; pc_typescript := false; pc_isMonorepo := false;
         pc_monorepoTool := None; pc_packageManager := Npm |}
      {| Scaffold.cwd := "/work"; Scaffold.touched := [] |}
    = (Returns tt, {| Scaffold.cwd := "/work"; Scaffold.touched := files |})
    /\ "/work/products/src/index.js" ∈ files
    /\ "/work/products/src/bootstrap.jsx" ∈ files.
Proof.
  destruct (standalone_generators_succeed (String.concat "/") (fun _ => true)
              {| pc_type := Remote; pc_name := "products"; pc_port := 3001;
                 pc_framework := Vue; pc_typescript := false; pc_isMonorepo := false;
                 pc_monorepoTool := None; pc_packageManager := Npm |}
              [] {| Scaffold.cwd := "/work"; Scaffold.touched := [] |}
              (fun _ => eq_refl))
    as [_ (files & E & (_ & _ & _ & H4 & H5) & _)].
  exists files. split; [exact E | split; [exact H4 | exact H5]].
Defined.

Section ScaffoldFailure.
Variable path_join : list string -> string.
Variable fs_ok : string -> bool.

Import Scaffold (fails_by_refusal).

Lemma refusal_ret {A} (a : A) : fails_by_refusal fs_ok (mret a : Scaffold.IO A).
Proof. by intros w e w' [=]. Qed.

Lemma refusal_processCwd : fails_by_refusal fs_ok Scaffold.processCwd.
Proof. by intros w e w' [=]. Qed.

Lemma refusal_touch target : fails_by_refusal fs_ok (Scaffold.touch fs_ok target).
Proof.
  intros w e w'. unfold Scaffold.touch.
  destruct (fs_ok target) eqn:E; intros [=]; subst. eauto.
Qed.

Lemma refusal_bind {A B} (m : Scaffold.IO A) (f : A -> Scaffold.IO B) :
  fails_by_refusal fs_ok m -> (forall a, fails_by_refusal fs_ok (f a)) ->
  fails_by_refusal fs_ok (m ≫= f).
Proof.
  intros Hm Hf w e w'. unfold mbind, Scaffold.IO_bind.
  destruct (m w) as [[a | e1] w1] eqn:E.
  - apply Hf.
  - intros [= <- <-]. by eapply Hm.
Qed.

Lemma refusal_in_directory {A} directory (body : Scaffold.IO A) :
  fails_by_refusal fs_ok body ->
  fails_by_refusal fs_ok
    (originalCwd ← Scaffold.processCwd;
     Scaffold.chdir directory;;
     Scaffold.tryFinally body (Scaffold.chdir originalCwd)).
Proof.
  intros Hbody w e w'.
  unfold mbind, Scaffold.IO_bind, Scaffold.processCwd, Scaffold.chdir,
    Scaffold.tryFinally. simpl.
  destruct (body _) as [r w1] eqn:E. intros [= -> <-]. by eapply Hbody.
Qed.

Ltac refusal :=
  repeat first
    [ apply refusal_touch | apply refusal_ret | apply refusal_processCwd
    | apply refusal_in_directory
    | apply refusal_bind; [| intros ?]
    | match goal with
      | |- fails_by_refusal _ (if ?b then _ else _) => destruct b
      | |- fails_by_refusal _ (match ?x with _ => _ end) => destruct x
      end ].

Lemma refusal_generateHostApp config remotes :
  fails_by_refusal fs_ok (Scaffold.generateHostApp path_join fs_ok config remotes).
Proof.
  unfold Scaffold.generateHostApp, Scaffold.generateHostSourceFiles,
    Scaffold.skip. refusal.
Qed.

Lemma refusal_generateRemoteApp config :
  fails_by_refusal fs_ok (Scaffold.generateRemoteApp path_join fs_ok config).
Proof.
  unfold Scaffold.generateRemoteApp, Scaffold.generateRemoteSourceFiles,
    Scaffold.skip. refusal.
Qed.

Lemma refusal_setupMonorepo config remotes :
  fails_by_refusal fs_ok (Scaffold.setupMonorepo path_join fs_ok config remotes).
Proof.
  unfold Scaffold.setupMonorepo, Scaffold.generateHostInMonorepo,
    Scaffold.generateRemoteInMonorepo, Scaffold.generateSharedTypesPackage,
    Scaffold.skip.
  refusal;
    first [ apply refusal_generateHostApp | apply refusal_generateRemoteApp ].
Qed.
End ScaffoldFailure.

(** X19: generation fails in one way only.  If [setupMonorepo],
    [generateHostApp] or [generateRemoteApp] ends with an error, the error is
    a file-system failure and the file system has refused some path; no
    name, port or remote is ever rejected at this stage. *)
Theorem generators_fail_by_refusal (path_join : list string -> string)
    (fs_ok : string -> bool) config remotes :
  Scaffold.fails_by_refusal fs_ok
    (Scaffold.setupMonorepo path_join fs_ok config remotes)
  /\ Scaffold.fails_by_refusal fs_ok
       (Scaffold.generateHostApp path_join fs_ok config remotes)
  /\ Scaffold.fails_by_refusal fs_ok
       (Scaffold.generateRemoteApp path_join fs_ok config).
Proof.
  split_and!.
  - apply refusal_setupMonorepo.
  - apply refusal_generateHostApp.
  - apply refusal_generateRemoteApp.
Qed.
